(** * The action selector of the organisation health pipeline

    A shallow embedding of [.github/scripts/opencog_action_selector.py]:
    the health metrics aggregator, the action catalogue, the target filter
    and the utility prioritizer, with the properties the specification
    states about them. *)

From Stdlib Require Import ZArith List String Ascii Bool Lia.
From Stdlib Require Import Sorting.Permutation Sorting.Sorted.
From Stdlib Require Import Floats.SpecFloat.
From stdpp Require Import base option list strings gmap.

Local Open Scope Z_scope.

(** ** Python floats

    A Python [float] is an IEEE 754 binary64 number.  The Standard
    Library's [spec_float] gives its values, and [SFmul 53 1024] and
    [SFcompare] the multiplication (round to nearest, ties to even) and the
    comparison of the hardware. *)

Module PyFloat.

Definition float : Type := spec_float.

Definition prec : Z := 53.
Definition emax : Z := 1024.

Definition mul (x y : float) : float := SFmul prec emax x y.
Definition ltb (x y : float) : bool := SFltb x y.
Definition eqb (x y : float) : bool := SFeqb x y.

Definition is_nan (x : float) : bool :=
  match x with S754_nan => true | _ => false end.

(** The literals of the source, as the nearest binary64 numbers. *)
Definition zero : float := S754_zero false.
Definition f0_5 : float := S754_finite false 4503599627370496 (-53).
Definition f0_7 : float := S754_finite false 6305039478318694 (-53).
Definition f0_8 : float := S754_finite false 7205759403792794 (-53).
Definition f0_84 : float := S754_finite false 7566047373982433 (-53).
Definition f0_9 : float := S754_finite false 8106479329266893 (-53).
Definition f1_0 : float := S754_finite false 4503599627370496 (-52).
Definition f1_1 : float := S754_finite false 4953959590107546 (-52).
Definition f1_2 : float := S754_finite false 5404319552844595 (-52).
Definition f1_3 : float := S754_finite false 5854679515581645 (-52).

End PyFloat.

(** ** Python strings

    A [string] stands for a Python [str] whose code points are below 256,
    one [ascii] per code point.  [split] and [strip] are the two methods of
    [str] the selector calls. *)

Module PyStr.

(** [str.isspace] on the code points below 256. *)
Definition isspace (c : ascii) : bool :=
  let n := N_of_ascii c in
  ((9 <=? n) && (n <=? 13) || (28 <=? n) && (n <=? 32)
   || (n =? 133) || (n =? 160))%N.

Fixpoint lstrip (s : string) : string :=
  match s with
  | EmptyString => EmptyString
  | String c s' => if isspace c then lstrip s' else s
  end.

Fixpoint rstrip (s : string) : string :=
  match s with
  | EmptyString => EmptyString
  | String c s' =>
      match rstrip s' with
      | EmptyString => if isspace c then EmptyString else String c EmptyString
      | r => String c r
      end
  end.

(** [s.strip()] *)
Definition strip (s : string) : string := rstrip (lstrip s).

(** [s.split(sep)] for a separator of one character: one piece more than
    there are separators, empty pieces kept. *)
Fixpoint split (sep : ascii) (s : string) : list string :=
  match s with
  | EmptyString => [EmptyString]
  | String c s' =>
      if Ascii.eqb c sep then EmptyString :: split sep s'
      else match split sep s' with
           | [] => [String c EmptyString]
           | piece :: pieces => String c piece :: pieces
           end
  end.

(** [x in l] for a list of strings. *)
Definition mem (x : string) (l : list string) : bool :=
  existsb (String.eqb x) l.

(** Truth value of an optional string: [None] and [''] are false. *)
Definition truthy (o : option string) : bool :=
  match o with
  | Some (String _ _) => true
  | _ => false
  end.

Definition len (s : string) : Z := Z.of_nat (String.length s).

End PyStr.

(** ** [sorted(l, key=..., reverse=True)]

    Python's [sorted] is stable, and with [reverse=True] elements with equal
    keys still keep their original order.  On keys that are numbers the
    result of such a sort is unique; it is computed here by stable insertion
    from the right, an element going before the first one that is not
    greater. *)

Section SortedReverse.
Context {A : Type} (key : A -> PyFloat.float).

Fixpoint insert_desc (x : A) (l : list A) : list A :=
  match l with
  | [] => [x]
  | y :: l' =>
      if PyFloat.ltb (key x) (key y) then y :: insert_desc x l' else x :: l
  end.

Fixpoint sorted_reverse (l : list A) : list A :=
  match l with
  | [] => []
  | x :: l' => insert_desc x (sorted_reverse l')
  end.

(** No later element is greater than an earlier one. *)
Definition descending (l : list A) : Prop :=
  StronglySorted (fun a b => PyFloat.ltb (key a) (key b) = false) l.

(** The elements whose key is [==] to [k], in order. *)
Definition with_key (k : PyFloat.float) (l : list A) : list A :=
  List.filter (fun a => PyFloat.eqb (key a) k) l.

End SortedReverse.

(** ** Data model

    The selector passes Python dictionaries around.  Each kind of dictionary
    is a record with one optional field per key the code reads or writes:
    [None] is an absent key, and [d.get(k, v)] is [default v (k d)]. *)

(** A value of an action's parameter mapping. *)
Inductive PyVal : Type :=
  | PyBool (b : bool)
  | PyInt (n : Z)
  | PyStr (s : string).

(** A repository as the hosting platform's API returns it.  [name] is
    [None] when the key is missing, so that [repo['name']] raises;
    [updated_at] is the instant [datetime.fromisoformat] reads from the
    timestamp, in microseconds since the epoch, and [None] when it raises. *)
Record Repo : Type := {
  name : option string;
  language : option string;
  description : option string;
  updated_at : option Z
}.

Record Metrics : Type := {
  total_repos : option Z;
  active_repos : option Z;
  outdated_repos : option Z;
  security_alerts : option Z;
  needs_documentation : option Z;
  languages : option (gmap string Z);
  last_activity_stats : option (gmap string Z)
}.

Record Action : Type := {
  type : option string;
  priority : option PyFloat.float;
  goal : option string;
  target_repo : option string;
  parameters : list (string * PyVal);
  calculated_utility : option PyFloat.float
}.

Record Context : Type := {
  repositories : option (list Repo);
  health_metrics : option Metrics
}.

(** The empty dictionary [{}] read as health metrics. *)
Definition no_metrics : Metrics :=
  {| total_repos := None; active_repos := None; outdated_repos := None;
     security_alerts := None; needs_documentation := None;
     languages := None; last_activity_stats := None |}.

(** Assignments [metrics[k] = v]. *)
Definition set_active_repos (v : Z) (m : Metrics) : Metrics :=
  {| total_repos := total_repos m; active_repos := Some v;
     outdated_repos := outdated_repos m; security_alerts := security_alerts m;
     needs_documentation := needs_documentation m; languages := languages m;
     last_activity_stats := last_activity_stats m |}.

Definition set_outdated_repos (v : Z) (m : Metrics) : Metrics :=
  {| total_repos := total_repos m; active_repos := active_repos m;
     outdated_repos := Some v; security_alerts := security_alerts m;
     needs_documentation := needs_documentation m; languages := languages m;
     last_activity_stats := last_activity_stats m |}.

Definition set_needs_documentation (v : Z) (m : Metrics) : Metrics :=
  {| total_repos := total_repos m; active_repos := active_repos m;
     outdated_repos := outdated_repos m; security_alerts := security_alerts m;
     needs_documentation := Some v; languages := languages m;
     last_activity_stats := last_activity_stats m |}.

Definition set_languages (v : gmap string Z) (m : Metrics) : Metrics :=
  {| total_repos := total_repos m; active_repos := active_repos m;
     outdated_repos := outdated_repos m; security_alerts := security_alerts m;
     needs_documentation := needs_documentation m; languages := Some v;
     last_activity_stats := last_activity_stats m |}.

(** [action['calculated_utility'] = u] *)
Definition set_calculated_utility (u : PyFloat.float) (a : Action) : Action :=
  {| type := type a; priority := priority a; goal := goal a;
     target_repo := target_repo a; parameters := parameters a;
     calculated_utility := Some u |}.

(** [action.get('goal') == g] *)
Definition goal_is (a : Action) (g : string) : bool :=
  match goal a with
  | Some g' => String.eqb g' g
  | None => false
  end.

(** ** The health metrics aggregator

    Exceptions are the [None] of the option monad; [now] is the instant
    [datetime.utcnow()] returns. *)

Definition microseconds_per_day : Z := 86400000000.

(** [(now - updated_at).days]: a [timedelta] keeps its days rounded down. *)
Definition days_since (now updated : Z) : Z :=
  (now - updated) / microseconds_per_day.

(** The condition under which a repository counts as needing
    documentation; [or] does not evaluate its second operand when the
    description is missing or empty. *)
Definition lacks_description (repo : Repo) : bool :=
  negb (PyStr.truthy (description repo))
  || (PyStr.len (default EmptyString (description repo)) <? 10).

(** The body of the loop over the repositories. *)
Definition count_repo (now : Z) (metrics : Metrics) (repo : Repo)
  : option Metrics :=
  updated ← updated_at repo;
  let days_since_update := days_since now updated in
  metrics ←
    (if days_since_update <=? 30 then
       n ← active_repos metrics; Some (set_active_repos (n + 1) metrics)
     else if 90 <? days_since_update then
       n ← outdated_repos metrics; Some (set_outdated_repos (n + 1) metrics)
     else Some metrics);
  metrics ←
    (if PyStr.truthy (language repo) then
       lang ← language repo;
       langs ← languages metrics;
       Some (set_languages (<[lang := default 0 (langs !! lang) + 1]> langs)
               metrics)
     else Some metrics);
  if lacks_description repo then
    n ← needs_documentation metrics;
    Some (set_needs_documentation (n + 1) metrics)
  else Some metrics.

Fixpoint count_repos (now : Z) (metrics : Metrics) (repos : list Repo)
  : option Metrics :=
  match repos with
  | [] => Some metrics
  | repo :: repos' =>
      metrics' ← count_repo now metrics repo;
      count_repos now metrics' repos'
  end.

Definition _calculate_health_metrics (now : Z) (repos : list Repo)
  : option Metrics :=
  match repos with
  | [] => Some no_metrics
  | _ :: _ =>
      let metrics :=
        {| total_repos := Some (Z.of_nat (length repos));
           active_repos := Some 0;
           outdated_repos := Some 0;
           security_alerts := Some 0;
           needs_documentation := Some 0;
           languages := Some ∅;
           last_activity_stats := Some ∅ |} in
      count_repos now metrics repos
  end.

(** ** The action catalogue *)

Definition analyze_organization_action : Action :=
  {| type := Some "analyze_organization"%string;
     priority := Some PyFloat.f1_0;
     goal := Some "understanding"%string;
     target_repo := Some "all"%string;
     parameters := [("include_metrics"%string, PyBool true);
                    ("include_trends"%string, PyBool true)];
     calculated_utility := None |}.

(** The action of a stale repository, [repo_name] being [repo['name']]. *)
Definition analyze_repository_action (repo_name : string)
    (days_since_update : Z) : Action :=
  {| type := Some "analyze_repository"%string;
     priority := Some PyFloat.f0_8;
     goal := Some "maintenance"%string;
     target_repo := Some repo_name;
     parameters := [("repo_name"%string, PyStr repo_name);
                    ("days_since_update"%string, PyInt days_since_update);
                    ("check_issues"%string, PyBool true);
                    ("check_security"%string, PyBool true)];
     calculated_utility := None |}.

(** The loop over the repositories.  The source reads the clock once for
    every repository; [now] stands for all these readings. *)
Fixpoint stale_repository_actions (now : Z) (repos : list Repo)
  : option (list Action) :=
  match repos with
  | [] => Some []
  | repo :: repos' =>
      updated ← updated_at repo;
      let days_since_update := days_since now updated in
      found ← (if 30 <? days_since_update then
                 repo_name ← name repo;
                 Some [analyze_repository_action repo_name days_since_update]
               else Some []);
      rest ← stale_repository_actions now repos';
      Some (found ++ rest)
  end.

Definition _select_analysis_actions (now : Z) (repos : list Repo)
    (metrics : Metrics) : option (list Action) :=
  rest ← stale_repository_actions now repos;
  Some (analyze_organization_action :: rest).

Definition sync_organization_profile_action : Action :=
  {| type := Some "sync_organization_profile"%string;
     priority := Some PyFloat.f1_0;
     goal := Some "consistency"%string;
     target_repo := Some "all"%string;
     parameters := [("update_statistics"%string, PyBool true);
                    ("refresh_repo_list"%string, PyBool true)];
     calculated_utility := None |}.

Definition _select_sync_actions (repos : list Repo) (metrics : Metrics)
  : list Action :=
  [sync_organization_profile_action].

Definition check_documentation_health_action (missing_docs_count : Z)
  : Action :=
  {| type := Some "check_documentation_health"%string;
     priority := Some PyFloat.f0_9;
     goal := Some "quality"%string;
     target_repo := Some "all"%string;
     parameters := [("missing_docs_count"%string, PyInt missing_docs_count)];
     calculated_utility := None |}.

Definition check_activity_health_action (outdated_count : Z) : Action :=
  {| type := Some "check_activity_health"%string;
     priority := Some PyFloat.f0_7;
     goal := Some "maintenance"%string;
     target_repo := Some "all"%string;
     parameters := [("outdated_count"%string, PyInt outdated_count)];
     calculated_utility := None |}.

(** [metrics.get(k, 0) > 0] holds only when the key is there, so that the
    [metrics[k]] of the parameters finds it. *)
Definition _select_health_actions (repos : list Repo) (metrics : Metrics)
  : list Action :=
  (match needs_documentation metrics with
   | Some n => if 0 <? n then [check_documentation_health_action n] else []
   | None => []
   end)
  ++
  (match outdated_repos metrics with
   | Some n => if 0 <? n then [check_activity_health_action n] else []
   | None => []
   end).

Definition security_scan_organization_action : Action :=
  {| type := Some "security_scan_organization"%string;
     priority := Some PyFloat.f1_0;
     goal := Some "security"%string;
     target_repo := Some "all"%string;
     parameters := [("scan_vulnerabilities"%string, PyBool true);
                    ("check_permissions"%string, PyBool true);
                    ("audit_access"%string, PyBool true)];
     calculated_utility := None |}.

Definition _select_security_actions (repos : list Repo) (metrics : Metrics)
  : list Action :=
  [security_scan_organization_action].

Definition _select_comprehensive_actions (now : Z) (repos : list Repo)
    (metrics : Metrics) : option (list Action) :=
  analysis ← _select_analysis_actions now repos metrics;
  Some (analysis ++ _select_sync_actions repos metrics
                 ++ _select_health_actions repos metrics).

(** ** The target filter

    The step of [select_actions] between the catalogue and the prioritizer. *)

Definition retained (target_list : list string) (action : Action) : bool :=
  PyStr.mem (default "all"%string (target_repo action)) target_list
  || match target_repo action with
     | Some scope => String.eqb scope "all"
     | None => false
     end.

Definition target_names (target_repos : string) : list string :=
  map PyStr.strip (PyStr.split ","%char target_repos).

Definition filter_targets (target_repos : string) (actions : list Action)
  : list Action :=
  if negb (String.eqb target_repos "all") then
    let target_list := target_names target_repos in
    List.filter (retained target_list) actions
  else actions.

(** ** The utility prioritizer *)

Definition utility_of (context : Context) (action : Action) : PyFloat.float :=
  let utility := default PyFloat.f0_5 (priority action) in
  let utility :=
    if goal_is action "security" then PyFloat.mul utility PyFloat.f1_3
    else utility in
  let health_metrics := default no_metrics (health_metrics context) in
  let utility :=
    if goal_is action "maintenance"
       && (3 <? default 0 (outdated_repos health_metrics))
    then PyFloat.mul utility PyFloat.f1_2
    else utility in
  let utility :=
    if goal_is action "understanding" then PyFloat.mul utility PyFloat.f1_1
    else utility in
  utility.

(** One turn of the loop: the action with its utility written into it. *)
Definition with_utility (context : Context) (action : Action) : Action :=
  set_calculated_utility (utility_of context action) action.

(** [x.get('calculated_utility', 0)] *)
Definition sort_key (action : Action) : PyFloat.float :=
  default PyFloat.zero (calculated_utility action).

(** The loop writes the utility into every action of the list, and the
    same utility when an action occurs more than once, since it is
    computed from fields the loop leaves alone; the result lists the
    written actions. *)
Definition _prioritize_actions (actions : list Action) (context : Context)
  : list Action :=
  sorted_reverse sort_key (map (with_utility context) actions).

(** ** [select_actions] *)

Definition select_actions (now : Z) (action_type target_repos : string)
    (context : Context) : option (list Action) :=
  let repos := default [] (repositories context) in
  let health_metrics := default no_metrics (health_metrics context) in
  actions ←
    (if String.eqb action_type "analyze" then
       _select_analysis_actions now repos health_metrics
     else if String.eqb action_type "sync" then
       Some (_select_sync_actions repos health_metrics)
     else if String.eqb action_type "health_check" then
       Some (_select_health_actions repos health_metrics)
     else if String.eqb action_type "security_scan" then
       Some (_select_security_actions repos health_metrics)
     else _select_comprehensive_actions now repos health_metrics);
  let actions := filter_targets target_repos actions in
  Some (_prioritize_actions actions context).

(** ** Gathering the context

    [get_organization_context] asks the hosting platform for the
    organisation and for its repositories.  A call of [requests.get] that
    raises is [None]; a response has its status code and the value of
    [response.json()], [None] when that call raises.  The text of an
    exception is not modelled: the key [error] is there or not. *)

Record Response (A : Type) : Type := {
  status_code : Z;
  json : option A
}.
Arguments status_code {A} _.
Arguments json {A} _.

Module Gathered.

Record Context : Type := {
  organization : option (list (string * PyVal));
  repositories : option (list Repo);
  total_repos : option Z;
  analysis_time : option Z;
  health_metrics : option Metrics;
  error : option unit
}.

End Gathered.

(** The body of the [try]; the clock is read for [analysis_time] and again
    by the aggregator, and [now] stands for both readings. *)
Definition gather_context (now : Z)
    (org_response : option (Response (list (string * PyVal))))
    (repos_response : option (Response (list Repo)))
  : option Gathered.Context :=
  org_response ← org_response;
  org_data ← (if status_code org_response =? 200 then json org_response
              else Some []);
  repos_response ← repos_response;
  repos_data ← (if status_code repos_response =? 200 then json repos_response
                else Some []);
  metrics ← _calculate_health_metrics now repos_data;
  Some {| Gathered.organization := Some org_data;
          Gathered.repositories := Some repos_data;
          Gathered.total_repos := Some (Z.of_nat (length repos_data));
          Gathered.analysis_time := Some now;
          Gathered.health_metrics := Some metrics;
          Gathered.error := None |}.

Definition get_organization_context (now : Z)
    (org_response : option (Response (list (string * PyVal))))
    (repos_response : option (Response (list Repo)))
  : Gathered.Context :=
  match gather_context now org_response repos_response with
  | Some context => context
  | None =>
      {| Gathered.organization := None;
         Gathered.repositories := Some [];
         Gathered.total_repos := None;
         Gathered.analysis_time := None;
         Gathered.health_metrics := None;
         Gathered.error := Some tt |}
  end.

(** The two keys of the gathered context that [select_actions] reads. *)
Definition selector_context (context : Gathered.Context) : Context :=
  {| repositories := Gathered.repositories context;
     health_metrics := Gathered.health_metrics context |}.

(** ** The executor

    [execute_actions] of [opencog_executor.py] runs the selected actions in
    order.  The six handlers call the hosting platform and write files; they
    are the parameters of the section, each returning its result dictionary
    or raising an exception with its text.  A result dictionary is a record
    of the keys the loop reads or writes, the other keys being its
    [payload]; the keys that hold times are left out. *)

Section Executor.
Context {Payload : Type}.

Record ActionResult : Type := {
  success : option bool;
  error : option string;
  action_index : option Z;
  action_type : option (option string);
  payload : option Payload
}.

(** What a call gives: a result, or an exception with its text. *)
Inductive Outcome : Type :=
  | Returned (result : ActionResult)
  | Raised (message : string).

Record ExecutionSummary : Type := {
  total_actions : Z;
  successful_actions : Z;
  failed_actions : Z;
  skipped_actions : Z;
  results : list ActionResult
}.

Variables (_analyze_organization _analyze_repository
           _sync_organization_profile _check_documentation_health
           _check_activity_health _security_scan_organization
           : Action -> Context -> Outcome).

(** [str(action_type)] inside the message of the last branch. *)
Definition type_text (action_type : option string) : string :=
  default "None"%string action_type.

Definition _execute_single_action (action : Action) (context : Context)
  : Outcome :=
  let action_type := type action in
  let type_is (t : string) :=
    match action_type with
    | Some t' => String.eqb t' t
    | None => false
    end in
  if type_is "analyze_organization" then _analyze_organization action context
  else if type_is "analyze_repository" then _analyze_repository action context
  else if type_is "sync_organization_profile" then
    _sync_organization_profile action context
  else if type_is "check_documentation_health" then
    _check_documentation_health action context
  else if type_is "check_activity_health" then
    _check_activity_health action context
  else if type_is "security_scan_organization" then
    _security_scan_organization action context
  else
    Returned
      {| success := Some false;
         error := Some ("Unknown action type: " ++ type_text action_type)%string;
         action_index := None;
         action_type := None;
         payload := None |}.

(** [result['action_index'] = i; result['action_type'] = action.get('type')] *)
Definition tag_result (i : Z) (action : Action) (result : ActionResult)
  : ActionResult :=
  {| success := success result; error := error result;
     action_index := Some i; action_type := Some (type action);
     payload := payload result |}.

(** The result the [except] branch builds. *)
Definition error_result (i : Z) (action : Action) (message : string)
  : ActionResult :=
  {| success := Some false; error := Some message;
     action_index := Some i; action_type := Some (type action);
     payload := None |}.

(** One turn of the loop over [enumerate(actions)]. *)
Definition execute_step (context : Context) (summary : ExecutionSummary)
    (i : Z) (action : Action) : ExecutionSummary :=
  match _execute_single_action action context with
  | Returned result =>
      let result := tag_result i action result in
      if default false (success result) then
        {| total_actions := total_actions summary;
           successful_actions := successful_actions summary + 1;
           failed_actions := failed_actions summary;
           skipped_actions := skipped_actions summary;
           results := results summary ++ [result] |}
      else
        {| total_actions := total_actions summary;
           successful_actions := successful_actions summary;
           failed_actions := failed_actions summary + 1;
           skipped_actions := skipped_actions summary;
           results := results summary ++ [result] |}
  | Raised message =>
      {| total_actions := total_actions summary;
         successful_actions := successful_actions summary;
         failed_actions := failed_actions summary + 1;
         skipped_actions := skipped_actions summary;
         results := results summary ++ [error_result i action message] |}
  end.

Fixpoint execute_from (context : Context) (summary : ExecutionSummary)
    (i : Z) (actions : list Action) : ExecutionSummary :=
  match actions with
  | [] => summary
  | action :: actions' =>
      execute_from context (execute_step context summary i action)
                   (i + 1) actions'
  end.

(** [actions] and [context] are the keys [selected_actions] and [context]
    of the data the selector saved. *)
Definition execute_actions (actions : list Action) (context : Context)
  : ExecutionSummary :=
  execute_from context
    {| total_actions := Z.of_nat (length actions);
       successful_actions := 0;
       failed_actions := 0;
       skipped_actions := 0;
       results := [] |}
    0 actions.

End Executor.

(** ** Definitions the properties are stated with *)

(** The context that accompanies a repository list and its metrics. *)
Definition context_of (repos : list Repo) (metrics : Metrics) : Context :=
  {| repositories := Some repos; health_metrics := Some metrics |}.

(** The boost of a goal as the specification words it: the goals are
    told apart first, and at most one rule applies. *)
Definition boost_of (outdated_count : Z) (g : option string)
  : option PyFloat.float :=
  match g with
  | None => None
  | Some g =>
      if String.eqb g "security" then Some PyFloat.f1_3
      else if String.eqb g "maintenance" then
        if 3 <? outdated_count then Some PyFloat.f1_2 else None
      else if String.eqb g "understanding" then Some PyFloat.f1_1
      else None
  end.

Definition boosted_utility (outdated_count : Z) (action : Action)
  : PyFloat.float :=
  let base := default PyFloat.f0_5 (priority action) in
  match boost_of outdated_count (goal action) with
  | Some factor => PyFloat.mul base factor
  | None => base
  end.

(** Every base priority that is there is a number. *)
Definition priorities_are_numbers (actions : list Action) : Prop :=
  Forall (fun a => forall p, priority a = Some p -> PyFloat.is_nan p = false)
         actions.

(** Two actions in the right order: both carry a calculated utility, and
    that of the first is not smaller than that of the second. *)
Definition not_below (a b : Action) : Prop :=
  exists u v,
    calculated_utility a = Some u /\ calculated_utility b = Some v
    /\ PyFloat.ltb u v = false.

(** A list in descending order of the calculated utility its actions
    carry. *)
Definition descending_utility (l : list Action) : Prop :=
  Forall (fun a => is_Some (calculated_utility a)) l
  /\ StronglySorted not_below l.

(** The actions that carry a calculated utility equal to [u], in order. *)
Definition carrying (u : PyFloat.float) (l : list Action) : list Action :=
  List.filter (fun a => match calculated_utility a with
                        | Some v => PyFloat.eqb v u
                        | None => false
                        end) l.

(** An action with its calculated utility removed. *)
Definition without_utility (a : Action) : Action :=
  {| type := type a; priority := priority a; goal := goal a;
     target_repo := target_repo a; parameters := parameters a;
     calculated_utility := None |}.

(** The classes of a repository, from its staleness in whole days. *)
Definition is_active (now : Z) (repo : Repo) : bool :=
  match updated_at repo with
  | Some updated => days_since now updated <=? 30
  | None => false
  end.

Definition is_outdated (now : Z) (repo : Repo) : bool :=
  match updated_at repo with
  | Some updated => 90 <? days_since now updated
  | None => false
  end.

Definition in_watch_band (now : Z) (repo : Repo) : bool :=
  match updated_at repo with
  | Some updated =>
      (31 <=? days_since now updated) && (days_since now updated <=? 90)
  | None => false
  end.

(** A description that is absent, empty or shorter than ten characters. *)
Definition short_description (repo : Repo) : bool :=
  match description repo with
  | None => true
  | Some d => (String.length d <? 10)%nat
  end.

(** How many elements of a list satisfy a test. *)
Definition count {A : Type} (p : A -> bool) (l : list A) : Z :=
  Z.of_nat (length (List.filter p l)).

(** The four counters of a metrics dictionary, when all are there. *)
Definition counters (m : Metrics) : option (Z * Z * Z * Z) :=
  t ← total_repos m; a ← active_repos m;
  o ← outdated_repos m; d ← needs_documentation m;
  Some (t, a, o, d).

(** A counter as its readers take it: [metrics.get(k, 0)]. *)
Definition read (counter : option Z) : Z := default 0 counter.

Definition day : Z := microseconds_per_day.

(** Three repositories seen at day 100: one touched that day with a
    description of ten characters, one 50 days old with nine characters,
    one 95 days old with no description. *)
Definition sample_repos : list Repo :=
  [ {| name := Some "checkout"%string; language := Some "Python"%string;
       description := Some "0123456789"%string;
       updated_at := Some (100 * day) |};
    {| name := Some "sdk"%string; language := Some "Go"%string;
       description := Some "012345678"%string;
       updated_at := Some (50 * day) |};
    {| name := Some "legacy"%string; language := None;
       description := None;
       updated_at := Some (5 * day) |} ].

(** The pieces of a split, joined with the separator again. *)
Fixpoint join (sep : ascii) (pieces : list string) : string :=
  match pieces with
  | [] => EmptyString
  | [piece] => piece
  | piece :: pieces' => (piece ++ String sep (join sep pieces'))%string
  end.

Fixpoint has_char (c : ascii) (s : string) : bool :=
  match s with
  | EmptyString => false
  | String c' s' => Ascii.eqb c' c || has_char c s'
  end.

(** A repository that was last updated more than 30 whole days ago. *)
Definition stale (now : Z) (repo : Repo) : bool :=
  match updated_at repo with
  | Some updated => 30 <? days_since now updated
  | None => false
  end.

(** The name of a repository that has one. *)
Definition name_of (repo : Repo) : string := default EmptyString (name repo).

(** A repository the analyze selector cannot handle: it is stale and has no
    name, or its timestamp cannot be read. *)
Definition unanalysable (now : Z) (repo : Repo) : Prop :=
  updated_at repo = None \/ (stale now repo = true /\ name repo = None).

(** The whole days since a repository with a readable timestamp was
    updated. *)
Definition staleness (now : Z) (repo : Repo) : Z :=
  days_since now (default 0 (updated_at repo)).

(** How many repositories have the language [lang], the empty name
    standing for no language. *)
Definition has_language (lang : string) (repo : Repo) : bool :=
  match language repo with
  | Some (String c l) => String.eqb (String c l) lang
  | _ => false
  end.

Definition language_count (lang : string) (repos : list Repo) : Z :=
  count (has_language lang) repos.

(** A histogram that holds the counts [f], and no entry for a count of
    zero. *)
Definition holds (h : gmap string Z) (f : string -> Z) : Prop :=
  forall lang, h !! lang = if 0 <? f lang then Some (f lang) else None.

(** The candidates [select_actions] takes from the catalogue, before the
    filter and the prioritizer. *)
Definition candidate_actions (now : Z) (action_type : string)
    (context : Context) : option (list Action) :=
  let repos := default [] (repositories context) in
  let health_metrics := default no_metrics (health_metrics context) in
  if String.eqb action_type "analyze" then
    _select_analysis_actions now repos health_metrics
  else if String.eqb action_type "sync" then
    Some (_select_sync_actions repos health_metrics)
  else if String.eqb action_type "health_check" then
    Some (_select_health_actions repos health_metrics)
  else if String.eqb action_type "security_scan" then
    Some (_select_security_actions repos health_metrics)
  else _select_comprehensive_actions now repos health_metrics.

(** What the catalogue emits apart from the organisation-wide analysis. *)
Inductive lesser_action : Action -> Prop :=
  | lesser_repository repo_name days :
      lesser_action (analyze_repository_action repo_name days)
  | lesser_sync : lesser_action sync_organization_profile_action
  | lesser_documentation n :
      lesser_action (check_documentation_health_action n)
  | lesser_activity n : lesser_action (check_activity_health_action n).

(** The utilities the prioritizer can give to an action of the catalogue;
    0.96 is 0.8 boosted by 1.2. *)
Definition f0_96 : PyFloat.float :=
  S754_finite false 8646911284551352 (-53).

Definition catalogue_utilities : list PyFloat.float :=
  [PyFloat.f0_7; PyFloat.f0_84; PyFloat.f0_8; f0_96; PyFloat.f0_9;
   PyFloat.f1_0; PyFloat.f1_1; PyFloat.f1_3].

(** The action types the executor has a handler for. *)
Definition handled_types : list string :=
  ["analyze_organization"; "analyze_repository"; "sync_organization_profile";
   "check_documentation_health"; "check_activity_health";
   "security_scan_organization"]%string.

(** The action types with a rule of their own in [select_actions]. *)
Definition named_selectors : list string :=
  ["analyze"; "sync"; "health_check"; "security_scan"]%string.

(** A result that reports a success. *)
Definition succeeded {Payload : Type} (r : @ActionResult Payload) : bool :=
  default false (success r).

(** An outcome that counts as a success: the handler returned, and its
    result reports success. *)
Definition outcome_succeeded {Payload : Type} (o : @Outcome Payload) : bool :=
  match o with
  | Returned r => default false (success r)
  | Raised _ => false
  end.

(** What the summary holds for an action at position [k] whose handling
    had the outcome [o]. *)
Definition recorded {Payload : Type} (k : Z) (action : Action)
    (o : @Outcome Payload) : @ActionResult Payload :=
  match o with
  | Returned r =>
      {| success := success r; error := error r;
         action_index := Some k; action_type := Some (type action);
         payload := payload r |}
  | Raised message =>
      {| success := Some false; error := Some message;
         action_index := Some k; action_type := Some (type action);
         payload := None |}
  end.

(** A handler that always reports the same outcome, and one that raises. *)
Definition reports (ok : bool) (action : Action) (context : Context)
  : @Outcome unit :=
  Returned {| success := Some ok; error := None; action_index := None;
              action_type := None; payload := Some tt |}.

Definition raises (action : Action) (context : Context) : @Outcome unit :=
  Raised "connection refused".

(** * Properties *)

(** ** Python floats *)

Module PyFloatFacts.
Import PyFloat.

Lemma literals_valid :
  forallb (valid_binary prec emax)
    [zero; f0_5; f0_7; f0_8; f0_84; f0_9; f1_0; f1_1; f1_2; f1_3] = true.
Proof. vm_compute. reflexivity. Qed.

Lemma ltb_asym (x y : float) : ltb x y = true -> ltb y x = false.
Proof.
  unfold ltb, SFltb, SFcompare.
  destruct x as [[]|[]| |[] mx ex], y as [[]|[]| |[] my ey];
    try discriminate; try reflexivity;
    rewrite (Z.compare_antisym ex ey);
    change (Pos.compare_cont Eq my mx) with (Pos.compare my mx);
    change (Pos.compare_cont Eq mx my) with (Pos.compare mx my);
    rewrite (Pos.compare_antisym mx my);
    destruct (ex ?= ey); simpl; try discriminate; try reflexivity;
    destruct (mx ?= my)%positive; simpl; try discriminate; reflexivity.
Qed.

(** [x >= y], read as "not [x < y]", is transitive on numbers. *)
Lemma geb_trans (x y z : float) :
  is_nan x = false -> is_nan y = false -> is_nan z = false ->
  ltb x y = false -> ltb y z = false -> ltb x z = false.
Proof.
  unfold ltb, SFltb, SFcompare.
  destruct x as [[]|[]| |[] mx ex], y as [[]|[]| |[] my ey],
           z as [[]|[]| |[] mz ez];
    intros Hx Hy Hz; try discriminate; cbn; intros Hxy Hyz; try congruence;
    change (Pos.compare_cont Eq) with Pos.compare in *;
    destruct (Z.compare_spec ex ey), (Z.compare_spec ey ez),
             (Z.compare_spec ex ez);
    try congruence; try lia;
    destruct (Pos.compare_spec mx my), (Pos.compare_spec my mz),
             (Pos.compare_spec mx mz);
    cbn in *; try congruence; lia.
Qed.

(** On numbers, [==] is "neither smaller nor greater". *)
Lemma eqb_ltb (x y : float) :
  is_nan x = false -> is_nan y = false ->
  eqb x y = negb (ltb x y) && negb (ltb y x).
Proof.
  unfold eqb, ltb, SFeqb, SFltb, SFcompare.
  destruct x as [[]|[]| |[] mx ex], y as [[]|[]| |[] my ey];
    intros Hx Hy; try discriminate; try reflexivity;
    change (Pos.compare_cont Eq) with Pos.compare;
    rewrite (Z.compare_antisym ex ey), (Pos.compare_antisym mx my);
    destruct (ex ?= ey); simpl; try reflexivity;
    destruct (mx ?= my)%positive; reflexivity.
Qed.

(** Rounding never produces a negative mantissa, so a product of two
    finite numbers is a number. *)
Lemma shr_1_nonneg mrs : 0 <= shr_m mrs -> 0 <= shr_m (shr_1 mrs).
Proof.
  destruct mrs as [m r s]; simpl.
  destruct m as [|[p|p|]|p]; simpl; lia.
Qed.

Lemma iter_shr_1_nonneg p : forall mrs,
  0 <= shr_m mrs -> 0 <= shr_m (SpecFloat.iter_pos shr_1 p mrs).
Proof.
  induction p as [p IH|p IH|]; intros mrs H; simpl.
  - apply IH, IH, shr_1_nonneg, H.
  - apply IH, IH, H.
  - apply shr_1_nonneg, H.
Qed.

Lemma shr_fexp_nonneg m e l :
  0 <= m -> 0 <= shr_m (fst (shr_fexp prec emax m e l)).
Proof.
  intros H. unfold shr_fexp, shr.
  assert (H0 : 0 <= shr_m (shr_record_of_loc m l))
    by (destruct l as [|[]]; exact H).
  destruct (fexp prec emax (Zdigits2 m + e) - e); simpl; auto.
  apply iter_shr_1_nonneg, H0.
Qed.

Lemma round_nearest_even_nonneg m l :
  0 <= m -> 0 <= round_nearest_even m l.
Proof.
  intros H. unfold round_nearest_even.
  destruct l as [|[]]; try destruct (Z.even m); lia.
Qed.

Lemma binary_round_aux_not_nan s m e l :
  0 <= m -> is_nan (binary_round_aux prec emax s m e l) = false.
Proof.
  intros H. unfold binary_round_aux.
  pose proof (shr_fexp_nonneg m e l H) as H1.
  destruct (shr_fexp prec emax m e l) as [mrs1 e1]; simpl in H1.
  pose proof (shr_fexp_nonneg _ e1 loc_Exact
                (round_nearest_even_nonneg _ (loc_of_shr_record mrs1) H1)) as H2.
  destruct (shr_fexp prec emax _ e1 loc_Exact) as [mrs2 e2]; simpl in H2.
  destruct (shr_m mrs2); try lia; try reflexivity.
  destruct (e2 <=? emax - prec); reflexivity.
Qed.

Lemma mul_finite_not_nan (x : float) s m e :
  is_nan x = false -> is_nan (mul x (S754_finite s m e)) = false.
Proof.
  destruct x as [sx|sx| |sx mx ex]; intros H; try discriminate; try reflexivity.
  apply binary_round_aux_not_nan. lia.
Qed.

End PyFloatFacts.


(** ** The sort *)

Section SortedReverseFacts.
Context {A : Type} (key : A -> PyFloat.float).
Import PyFloat PyFloatFacts.

Let number (a : A) : Prop := is_nan (key a) = false.

Lemma insert_desc_perm x l : Permutation (insert_desc key x l) (x :: l).
Proof.
  induction l as [|y l IH]; simpl; [reflexivity|].
  destruct (ltb (key x) (key y)); [|reflexivity].
  rewrite IH. apply perm_swap.
Qed.

Lemma sorted_reverse_perm l : Permutation (sorted_reverse key l) l.
Proof.
  induction l as [|x l IH]; simpl; [reflexivity|].
  rewrite insert_desc_perm. now constructor.
Qed.

Lemma sorted_reverse_numbers l :
  Forall number l -> Forall number (sorted_reverse key l).
Proof.
  intros H. eapply Permutation_Forall; [|exact H].
  symmetry. apply sorted_reverse_perm.
Qed.

Lemma insert_desc_descending x l :
  number x -> Forall number l ->
  descending key l -> descending key (insert_desc key x l).
Proof.
  intros Hx Hl Hs. induction Hs as [|y l Hs IH Hy]; simpl.
  - repeat constructor.
  - inversion Hl as [|? ? Ny Nl]; subst.
    destruct (ltb (key x) (key y)) eqn:E.
    + constructor; [now apply IH|].
      eapply Permutation_Forall;
        [symmetry; apply insert_desc_perm|].
      constructor; [now apply ltb_asym | exact Hy].
    + constructor; [now constructor|].
      constructor; [exact E|].
      rewrite Forall_forall in Hy, Nl |- *. intros z Hz.
      eapply (geb_trans _ (key y)); auto. now apply Nl.
Qed.

Lemma sorted_reverse_descending l :
  Forall number l -> descending key (sorted_reverse key l).
Proof.
  induction 1 as [|x l Hx Hl IH]; simpl; [constructor|].
  apply insert_desc_descending; auto using sorted_reverse_numbers.
Qed.

(** Two numbers that are equal to a third are not in strict order. *)
Lemma eqb_not_ltb x y k :
  eqb x k = true -> eqb y k = true -> ltb x y = false.
Proof.
  intros Hx Hy.
  assert (Nx : is_nan x = false) by (now destruct x).
  assert (Ny : is_nan y = false) by (now destruct y).
  assert (Nk : is_nan k = false)
    by (destruct k; try reflexivity; now destruct x).
  rewrite eqb_ltb in Hx, Hy by assumption.
  apply andb_true_iff in Hx as [Hx _], Hy as [_ Hy].
  apply negb_true_iff in Hx, Hy.
  now apply (geb_trans x k y).
Qed.

Lemma insert_desc_with_key k x l :
  with_key key k (insert_desc key x l) = with_key key k (x :: l).
Proof.
  induction l as [|y l IH]; [reflexivity|].
  simpl insert_desc. destruct (ltb (key x) (key y)) eqn:E; [|reflexivity].
  unfold with_key in *. simpl in *. rewrite IH.
  destruct (eqb (key x) k) eqn:Ex, (eqb (key y) k) eqn:Ey; try reflexivity.
  rewrite (eqb_not_ltb _ _ _ Ex Ey) in E. discriminate.
Qed.

(** Stability: the elements of any one key come out in the order they
    went in. *)
Lemma sorted_reverse_stable k l :
  with_key key k (sorted_reverse key l) = with_key key k l.
Proof.
  induction l as [|x l IH]; [reflexivity|].
  simpl sorted_reverse. rewrite insert_desc_with_key.
  unfold with_key in *. simpl. now rewrite IH.
Qed.

(** A list that is already in descending order is left as it is. *)
Lemma sorted_reverse_fixed l :
  descending key l -> sorted_reverse key l = l.
Proof.
  induction 1 as [|x l Hs IH Hx]; [reflexivity|].
  simpl. rewrite IH. destruct Hx as [|y l' Hy _]; [reflexivity|].
  simpl. now rewrite Hy.
Qed.

Lemma ltb_irrefl x : ltb x x = false.
Proof. destruct (ltb x x) eqn:E; [|reflexivity]. now rewrite (ltb_asym _ _ E) in E. Qed.

(** The three properties of a stable descending sort leave one list only:
    whatever algorithm [sorted] runs, on keys that are numbers it returns
    what [sorted_reverse] returns. *)
Lemma stable_descending_unique l1 : forall l2,
  Forall number l1 ->
  Permutation l1 l2 -> descending key l1 -> descending key l2 ->
  (forall k, with_key key k l1 = with_key key k l2) ->
  l1 = l2.
Proof.
  induction l1 as [|x t1 IH]; intros l2 Hn Hp Hd1 Hd2 Hk.
  - symmetry. now apply Permutation_nil.
  - destruct l2 as [|y t2];
      [symmetry in Hp; apply Permutation_nil in Hp; discriminate|].
    assert (Hn2 : Forall number (y :: t2))
      by (eapply Permutation_Forall; eassumption).
    inversion Hn as [|? ? Nx Nt1]; subst.
    inversion Hn2 as [|? ? Ny Nt2]; subst.
    inversion Hd1 as [|? ? Hd1' Hx]; subst.
    inversion Hd2 as [|? ? Hd2' Hy]; subst.
    assert (Exy : x = y).
    { assert (Hyin : In y (x :: t1))
        by (apply (Permutation_in _ (Permutation_sym Hp)); now left).
      assert (Hxin : In x (y :: t2))
        by (apply (Permutation_in _ Hp); now left).
      destruct Hyin as [E|Hyin]; [exact E|].
      destruct Hxin as [E|Hxin]; [now symmetry|].
      rewrite List.Forall_forall in Hx, Hy.
      pose proof (Hx _ Hyin) as Hxy. pose proof (Hy _ Hxin) as Hyx.
      specialize (Hk (key y)). unfold with_key in Hk. simpl in Hk.
      rewrite !eqb_ltb, Hxy, Hyx, ltb_irrefl in Hk by assumption.
      simpl in Hk. now injection Hk. }
    subst y. f_equal. apply IH; try assumption.
    + now apply Permutation_cons_inv in Hp.
    + intros k. specialize (Hk k). unfold with_key in *. simpl in Hk.
      destruct (eqb (key x) k); [now injection Hk | exact Hk].
Qed.

Lemma sorted_reverse_unique l l' :
  Forall number l ->
  Permutation l' l -> descending key l' ->
  (forall k, with_key key k l' = with_key key k l) ->
  l' = sorted_reverse key l.
Proof.
  intros Hn Hp Hd Hk. apply stable_descending_unique; try assumption.
  - eapply Permutation_Forall; [symmetry; exact Hp | exact Hn].
  - rewrite Hp. symmetry. apply sorted_reverse_perm.
  - now apply sorted_reverse_descending.
  - intros k. now rewrite Hk, sorted_reverse_stable.
Qed.

End SortedReverseFacts.

(** ** The utility prioritizer *)

Section PrioritizerFacts.
Import PyFloat PyFloatFacts.

Lemma utility_of_boosted repos metrics action :
  utility_of (context_of repos metrics) action
  = boosted_utility (default 0 (outdated_repos metrics)) action.
Proof.
  unfold utility_of, boosted_utility, boost_of, goal_is. simpl.
  destruct (goal action) as [g|]; [|reflexivity].
  destruct (String.eqb_spec g "security") as [->|Hs]; [reflexivity|].
  destruct (String.eqb_spec g "maintenance") as [->|Hm].
  { simpl. now destruct (3 <? _). }
  destruct (String.eqb_spec g "understanding") as [->|Hu]; reflexivity.
Qed.

Lemma utility_of_number context action :
  (forall p, priority action = Some p -> is_nan p = false) ->
  is_nan (utility_of context action) = false.
Proof.
  intros H. unfold utility_of.
  assert (H0 : is_nan (default f0_5 (priority action)) = false).
  { destruct (priority action) as [p|]; simpl; auto. }
  repeat match goal with
         | |- context [if ?b then _ else _] => destruct b
         end;
    repeat apply mul_finite_not_nan; exact H0.
Qed.

Lemma sort_key_with_utility context action :
  sort_key (with_utility context action) = utility_of context action.
Proof. reflexivity. Qed.

Lemma with_utility_numbers context actions :
  priorities_are_numbers actions ->
  Forall (fun a => is_nan (sort_key a) = false)
         (map (with_utility context) actions).
Proof.
  unfold priorities_are_numbers. rewrite !List.Forall_forall.
  intros H a' Ha'. apply in_map_iff in Ha' as (a & <- & Ha).
  apply utility_of_number, H, Ha.
Qed.

Lemma with_utility_idem context action :
  with_utility context (with_utility context action)
  = with_utility context action.
Proof. reflexivity. Qed.

Lemma with_utility_without context action :
  with_utility context (without_utility action)
  = with_utility context action.
Proof. reflexivity. Qed.

Lemma prioritize_perm actions context :
  Permutation (_prioritize_actions actions context)
              (map (with_utility context) actions).
Proof. apply sorted_reverse_perm. Qed.

End PrioritizerFacts.

(** C1: the calculated utility of every action is its base priority,
    multiplied by 1.3 for the goal security, by 1.2 for the goal maintenance
    when more than three repositories are outdated, by 1.1 for the goal
    understanding, and left alone for the goals consistency and quality: the
    output holds exactly the input actions carrying that utility.  With five
    outdated repositories, a maintenance action of priority 0.7 gets 0.84,
    an understanding action of priority 1.0 gets 1.1, and the understanding
    action comes first. *)
Theorem prioritizer_utilities (repos : list Repo) (metrics : Metrics)
    (actions : list Action) :
  let context := context_of repos metrics in
  let outdated_count := default 0 (outdated_repos metrics) in
  (forall a', In a' (_prioritize_actions actions context) <->
     exists a, In a actions /\
       a' = set_calculated_utility (boosted_utility outdated_count a) a)
  /\ boost_of outdated_count (Some "consistency"%string) = None
  /\ boost_of outdated_count (Some "quality"%string) = None
  /\ (forall t1 s1 p1 c1 t2 s2 p2 c2,
        let maintenance :=
          {| type := t1; priority := Some PyFloat.f0_7;
             goal := Some "maintenance"%string; target_repo := s1;
             parameters := p1; calculated_utility := c1 |} in
        let understanding :=
          {| type := t2; priority := Some PyFloat.f1_0;
             goal := Some "understanding"%string; target_repo := s2;
             parameters := p2; calculated_utility := c2 |} in
        _prioritize_actions [maintenance; understanding]
          (context_of repos (set_outdated_repos 5 metrics))
        = [set_calculated_utility PyFloat.f1_1 understanding;
           set_calculated_utility PyFloat.f0_84 maintenance]).
Proof.
  intros context outdated_count.
  split; [|split; [reflexivity|split; [reflexivity|]]].
  - intros a'. split.
    + intros Ha'.
      apply (Permutation_in _ (prioritize_perm actions context)) in Ha'.
      apply in_map_iff in Ha' as (a & <- & Ha). exists a. split; [exact Ha|].
      unfold with_utility, context. now rewrite utility_of_boosted.
    + intros (a & Ha & ->).
      apply (Permutation_in _
               (Permutation_sym (prioritize_perm actions context))).
      apply in_map_iff. exists a. split; [|exact Ha].
      unfold with_utility, context. now rewrite utility_of_boosted.
  - intros. vm_compute. reflexivity.
Qed.

Section RankedByField.
Import PyFloat PyFloatFacts.

(** Every scored action carries the utility the sort reads. *)
Lemma scored_field context actions :
  Forall (fun a => calculated_utility a = Some (sort_key a))
         (map (with_utility context) actions).
Proof.
  apply List.Forall_forall. intros a Ha.
  apply in_map_iff in Ha as (a0 & <- & _). reflexivity.
Qed.

Lemma prioritized_field context actions :
  Forall (fun a => calculated_utility a = Some (sort_key a))
         (_prioritize_actions actions context).
Proof.
  eapply Permutation_Forall;
    [symmetry; apply prioritize_perm | apply scored_field].
Qed.

Lemma descending_field l :
  Forall (fun a => calculated_utility a = Some (sort_key a)) l ->
  descending sort_key l -> descending_utility l.
Proof.
  intros Hf Hd. split.
  - eapply List.Forall_impl; [|exact Hf]. intros a ->. eauto.
  - induction Hd as [|a l Hd IH Ha]; [constructor|].
    inversion Hf as [|? ? Fa Fl]; subst.
    constructor; [now apply IH|].
    rewrite List.Forall_forall in Ha, Fl |- *. intros b Hb.
    exists (sort_key a), (sort_key b). auto.
Qed.

Lemma carrying_field u l :
  Forall (fun a => calculated_utility a = Some (sort_key a)) l ->
  carrying u l = with_key sort_key u l.
Proof.
  intros Hf. unfold carrying, with_key. apply filter_ext_in.
  rewrite List.Forall_forall in Hf. intros a Ha. now rewrite (Hf a Ha).
Qed.

End RankedByField.

(** C2: the output of the prioritizer holds the same actions as its input,
    each with its calculated utility; it is in descending order of the
    calculated utility the actions carry, and the actions that carry any one
    utility come out in the order they went in. *)
Theorem prioritizer_sorts_stably (context : Context) (actions : list Action) :
  priorities_are_numbers actions ->
  let scored := map (with_utility context) actions in
  let output := _prioritize_actions actions context in
  Permutation output scored
  /\ Permutation (map without_utility output) (map without_utility actions)
  /\ descending_utility output
  /\ forall u, carrying u output = carrying u scored.
Proof.
  intros H scored output.
  split; [|split; [|split]].
  - apply prioritize_perm.
  - replace (map without_utility actions) with (map without_utility scored).
    + apply Permutation_map, prioritize_perm.
    + unfold scored. rewrite map_map. reflexivity.
  - apply descending_field; [apply prioritized_field|].
    apply sorted_reverse_descending, with_utility_numbers, H.
  - intros u.
    rewrite (carrying_field u output (prioritized_field context actions)).
    rewrite (carrying_field u scored (scored_field context actions)).
    apply sorted_reverse_stable.
Qed.

Lemma prioritizer_sorts_stably_witness :
  let review :=
    {| type := Some "review_repository"%string;
       priority := Some PyFloat.f1_0;
       goal := Some "quality"%string;
       target_repo := Some "sdk"%string;
       parameters := [];
       calculated_utility := None |} in
  let actions := [check_activity_health_action 5;
                  sync_organization_profile_action;
                  analyze_organization_action;
                  security_scan_organization_action;
                  check_documentation_health_action 2;
                  review] in
  let context := context_of [] (set_outdated_repos 5 no_metrics) in
  let output := _prioritize_actions actions context in
  priorities_are_numbers actions
  /\ map calculated_utility output
     = [Some PyFloat.f1_3; Some PyFloat.f1_1; Some PyFloat.f1_0;
        Some PyFloat.f1_0; Some PyFloat.f0_9; Some PyFloat.f0_84]
  /\ descending_utility output
  /\ carrying PyFloat.f1_0 output
     = [set_calculated_utility PyFloat.f1_0 sync_organization_profile_action;
        set_calculated_utility PyFloat.f1_0 review].
Proof.
  intros review actions context output.
  assert (H : priorities_are_numbers actions).
  { repeat constructor; simpl; intros p [= <-]; reflexivity. }
  split; [exact H|]. split; [reflexivity|].
  pose proof (prioritizer_sorts_stably context actions H) as (_ & _ & Hd & Hs).
  split; [exact Hd|].
  etransitivity; [exact (Hs PyFloat.f1_0) | reflexivity].
Defined.

(** C8: prioritizing the output of the prioritizer again, under the same
    health metrics, gives that output back in the same order. *)
Theorem prioritizer_idempotent (context : Context) (actions : list Action) :
  priorities_are_numbers actions ->
  _prioritize_actions (_prioritize_actions actions context) context
  = _prioritize_actions actions context.
Proof.
  intros H. unfold _prioritize_actions at 1.
  set (output := _prioritize_actions actions context).
  assert (Hfix : map (with_utility context) output = output).
  { rewrite <- (map_id output) at 2. apply map_ext_in. intros a' Ha'.
    apply (Permutation_in _ (prioritize_perm actions context)) in Ha'.
    apply in_map_iff in Ha' as (a & <- & _). apply with_utility_idem. }
  rewrite Hfix. apply sorted_reverse_fixed.
  apply sorted_reverse_descending, with_utility_numbers, H.
Qed.

Lemma prioritizer_idempotent_witness :
  let actions := [check_activity_health_action 1;
                  check_documentation_health_action 4;
                  security_scan_organization_action;
                  sync_organization_profile_action;
                  analyze_organization_action] in
  let context := context_of [] (set_outdated_repos 1 no_metrics) in
  priorities_are_numbers actions
  /\ _prioritize_actions (_prioritize_actions actions context) context
     = _prioritize_actions actions context.
Proof.
  intros actions context.
  assert (H : priorities_are_numbers actions).
  { repeat constructor; simpl; intros p [= <-]; reflexivity. }
  split; [exact H | exact (prioritizer_idempotent context actions H)].
Defined.

(** C9: two inputs that differ only in the calculated utilities the
    actions already carry are prioritized to the same output, utilities and
    order alike. *)
Theorem prioritizer_ignores_stale_utility (context : Context)
    (actions1 actions2 : list Action) :
  map without_utility actions1 = map without_utility actions2 ->
  _prioritize_actions actions1 context = _prioritize_actions actions2 context.
Proof.
  intros H. unfold _prioritize_actions. f_equal.
  transitivity (map (with_utility context) (map without_utility actions1)).
  - rewrite map_map. apply map_ext. intros a.
    symmetry. apply with_utility_without.
  - rewrite H, map_map. apply map_ext. intros a. apply with_utility_without.
Qed.

Lemma prioritizer_ignores_stale_utility_witness :
  let context := context_of [] (set_outdated_repos 5 no_metrics) in
  let actions1 :=
    [set_calculated_utility PyFloat.f1_3 (check_activity_health_action 5);
     analyze_organization_action] in
  let actions2 :=
    [check_activity_health_action 5;
     set_calculated_utility PyFloat.f0_5 analyze_organization_action] in
  actions1 <> actions2
  /\ _prioritize_actions actions1 context = _prioritize_actions actions2 context.
Proof.
  intros context actions1 actions2. split; [discriminate|].
  apply (prioritizer_ignores_stale_utility context actions1 actions2).
  reflexivity.
Defined.

(** ** The health metrics aggregator *)

Section AggregatorFacts.

Lemma count_cons {A : Type} (p : A -> bool) x l :
  count p (x :: l) = (if p x then 1 else 0) + count p l.
Proof. unfold count. simpl. destruct (p x); simpl length; lia. Qed.

Lemma count_nonneg {A : Type} (p : A -> bool) l : 0 <= count p l.
Proof. unfold count. lia. Qed.

Lemma lacks_description_short repo :
  lacks_description repo = short_description repo.
Proof.
  unfold lacks_description, short_description, PyStr.truthy, PyStr.len.
  destruct (description repo) as [[|c d]|]; try reflexivity.
  cbn [negb orb default from_option id].
  destruct (Nat.ltb_spec (String.length (String c d)) 10);
    [apply Z.ltb_lt | apply Z.ltb_ge]; lia.
Qed.

Lemma count_repo_counters now m repo m' t a o d :
  count_repo now m repo = Some m' ->
  counters m = Some (t, a, o, d) ->
  counters m' =
    Some (t,
          a + (if is_active now repo then 1 else 0),
          o + (if is_outdated now repo then 1 else 0),
          d + (if short_description repo then 1 else 0))
  /\ is_Some (updated_at repo).
Proof.
  unfold count_repo, counters, is_active, is_outdated.
  rewrite lacks_description_short.
  destruct m as [mt ma mo ms md ml mx]; simpl.
  destruct (updated_at repo) as [u|]; simpl; [|discriminate].
  destruct mt, ma, mo, md; simpl; try discriminate.
  intros H [= -> -> -> ->]. split; [|eauto].
  destruct (days_since now u <=? 30) eqn:E30;
    destruct (90 <? days_since now u) eqn:E90;
    try (apply Z.leb_le in E30; apply Z.ltb_lt in E90; lia);
    simpl in H;
    destruct (PyStr.truthy (language repo));
    destruct (language repo); destruct ml; simpl in H;
    try discriminate;
    destruct (short_description repo); simpl in H;
    injection H as <-; simpl; repeat f_equal; lia.
Qed.

Lemma count_repos_counters now repos : forall m m' t a o d,
  count_repos now m repos = Some m' ->
  counters m = Some (t, a, o, d) ->
  counters m' =
    Some (t,
          a + count (is_active now) repos,
          o + count (is_outdated now) repos,
          d + count short_description repos)
  /\ Forall (fun repo => is_Some (updated_at repo)) repos.
Proof.
  induction repos as [|repo repos IH]; intros m m' t a o d H Hm.
  - injection H as <-. unfold count. simpl.
    rewrite !Z.add_0_r. split; [exact Hm | constructor].
  - simpl in H. destruct (count_repo now m repo) as [m1|] eqn:E;
      [|discriminate].
    simpl in H.
    destruct (count_repo_counters _ _ _ _ _ _ _ _ E Hm) as [H1 Hu].
    destruct (IH _ _ _ _ _ _ H H1) as [H2 Hus].
    split; [|now constructor].
    rewrite H2, !count_cons, !Z.add_assoc. reflexivity.
Qed.

Lemma calculate_counters now repos m :
  _calculate_health_metrics now repos = Some m ->
  read (total_repos m) = Z.of_nat (length repos)
  /\ read (active_repos m) = count (is_active now) repos
  /\ read (outdated_repos m) = count (is_outdated now) repos
  /\ read (needs_documentation m) = count short_description repos
  /\ Forall (fun repo => is_Some (updated_at repo)) repos.
Proof.
  destruct repos as [|repo repos].
  - intros [= <-]. repeat split; constructor.
  - unfold _calculate_health_metrics. intros H.
    eapply count_repos_counters in H as [H Hu]; [|reflexivity].
    unfold counters in H.
    destruct (total_repos m), (active_repos m), (outdated_repos m),
      (needs_documentation m); try discriminate.
    injection H as -> -> -> ->. now repeat split.
Qed.

(** Every repository with a timestamp is in exactly one class. *)
Lemma classes_partition now repos :
  Forall (fun repo => is_Some (updated_at repo)) repos ->
  count (is_active now) repos + count (is_outdated now) repos
  + count (in_watch_band now) repos = Z.of_nat (length repos).
Proof.
  induction 1 as [|repo repos [u Hu] _ IH]; [reflexivity|].
  rewrite !count_cons. cbn [length]. rewrite Nat2Z.inj_succ, <- IH.
  unfold is_active, is_outdated, in_watch_band. rewrite Hu.
  destruct (Z.leb_spec (days_since now u) 30),
    (Z.ltb_spec 90 (days_since now u)),
    (Z.leb_spec 31 (days_since now u)),
    (Z.leb_spec (days_since now u) 90); simpl; lia.
Qed.

Lemma count_zero {A : Type} (p : A -> bool) l :
  count p l = 0 <-> forall x, In x l -> p x = false.
Proof.
  induction l as [|x l IH].
  - split; [intros _ x []|reflexivity].
  - rewrite count_cons. pose proof (count_nonneg p l). split.
    + intros H0 y [Hxy|Hy].
      * subst y. destruct (p x); [lia|reflexivity].
      * apply IH; [|exact Hy]. destruct (p x); lia.
    + intros Hall. rewrite (Hall x (or_introl eq_refl)).
      apply IH. intros y Hy. apply Hall. now right.
Qed.

(** The aggregator fails on nothing but a timestamp it cannot read. *)
Lemma count_repos_total now repos : forall m,
  Forall (fun repo => is_Some (updated_at repo)) repos ->
  is_Some (counters m) -> is_Some (languages m) ->
  is_Some (count_repos now m repos).
Proof.
  induction repos as [|repo repos IH]; intros m Hu Hc Hl; [simpl; eauto|].
  inversion Hu as [|? ? [u Eu] Hus]; subst.
  assert (Hstep : exists m1, count_repo now m repo = Some m1
                             /\ is_Some (languages m1)).
  { destruct Hc as [[[[t a] o] d] Hc]. destruct Hl as [ml Hl].
    unfold count_repo, counters in *. rewrite Eu.
    destruct m as [mt ma mo ms md mlang mx]; simpl in *. subst mlang.
    destruct mt, ma, mo, md; try discriminate. simpl.
    destruct (days_since now u <=? 30), (90 <? days_since now u); simpl;
      destruct (language repo) as [[|c lang]|]; simpl;
      destruct (lacks_description repo); simpl; eauto. }
  destruct Hstep as (m1 & E1 & Hl1). simpl. rewrite E1. simpl.
  apply IH; [exact Hus| |exact Hl1].
  destruct Hc as [[[[t a] o] d] Hc].
  destruct (count_repo_counters _ _ _ _ _ _ _ _ E1 Hc) as [-> _]. eauto.
Qed.

Lemma calculate_total now repos :
  Forall (fun repo => is_Some (updated_at repo)) repos ->
  is_Some (_calculate_health_metrics now repos).
Proof.
  intros H. destruct repos as [|repo repos]; [simpl; eauto|].
  unfold _calculate_health_metrics.
  apply count_repos_total; [exact H|simpl; eauto..].
Qed.

End AggregatorFacts.

(** C3, as the specification states it, fails: a description of exactly
    ten characters is within the stated bound, and the repository is not
    counted. *)
Lemma ten_characters_not_counted :
  let repo := {| name := Some "checkout"%string; language := None;
                 description := Some "0123456789"%string;
                 updated_at := Some 0 |} in
  (exists d, description repo = Some d /\ (String.length d <= 10)%nat)
  /\ exists m, _calculate_health_metrics 0 [repo] = Some m
               /\ needs_documentation m = Some 0.
Proof.
  split.
  - eexists. split; [reflexivity|]. simpl. lia.
  - eexists. split; reflexivity.
Qed.

(** C3 (amended): the documentation-gap counter is the number of
    repositories whose description is absent, empty or shorter than ten
    characters; a description of ten characters or more is not counted. *)
Theorem documentation_gap_count (now : Z) (repos : list Repo) (m : Metrics) :
  _calculate_health_metrics now repos = Some m ->
  read (needs_documentation m) = count short_description repos
  /\ forall repo,
       short_description repo = true <->
       description repo = None
       \/ exists d, description repo = Some d /\ (String.length d < 10)%nat.
Proof.
  intros H. split.
  - now apply calculate_counters in H as (_ & _ & _ & H & _).
  - intros repo. unfold short_description.
    destruct (description repo) as [d|].
    + rewrite Nat.ltb_lt. split.
      * intros Hd. right. eauto.
      * intros [Hn|(d' & [= <-] & Hd)]; [discriminate|exact Hd].
    + split; [now left|reflexivity].
Qed.

Lemma documentation_gap_count_witness :
  exists m, _calculate_health_metrics (100 * day) sample_repos = Some m
            /\ read (needs_documentation m) = 2.
Proof.
  eexists. split; [reflexivity|].
  exact (proj1 (documentation_gap_count (100 * day) sample_repos _ eq_refl)).
Defined.

(** C4, as the specification states it, fails: on the empty list the
    aggregator returns the empty dictionary, in which no counter is zero
    and no histogram is found, since none is there. *)
Lemma empty_metrics_have_no_counters :
  exists m, _calculate_health_metrics 0 [] = Some m
            /\ total_repos m <> Some 0
            /\ active_repos m <> Some 0
            /\ outdated_repos m <> Some 0
            /\ needs_documentation m <> Some 0
            /\ languages m <> Some ∅.
Proof. eexists. split; [reflexivity|]. repeat split; discriminate. Qed.

(** C4 (amended): on the empty repository list the aggregator raises no
    error and returns the empty dictionary: it holds no counter and no
    histogram, and each counter read with the default 0, and the histogram
    read with the default of no entries, is zero or empty. *)
Theorem empty_repository_list (now : Z) :
  _calculate_health_metrics now [] = Some no_metrics
  /\ counters no_metrics = None
  /\ languages no_metrics = None
  /\ read (total_repos no_metrics) = 0
  /\ read (active_repos no_metrics) = 0
  /\ read (outdated_repos no_metrics) = 0
  /\ read (needs_documentation no_metrics) = 0
  /\ default (∅ : gmap string Z) (languages no_metrics) = ∅.
Proof. repeat split. Qed.

(** C5: the active and the outdated count never add up to more than the
    total, and add up to it exactly when no repository is 31 to 90 days
    stale; a repository is active at 30 days or less, outdated at more than
    90, and in neither count otherwise. *)
Theorem active_outdated_total (now : Z) (repos : list Repo) (m : Metrics) :
  _calculate_health_metrics now repos = Some m ->
  let active := read (active_repos m) in
  let outdated := read (outdated_repos m) in
  let total := read (total_repos m) in
  active = count (is_active now) repos
  /\ outdated = count (is_outdated now) repos
  /\ total = Z.of_nat (length repos)
  /\ active + outdated <= total
  /\ (active + outdated = total <->
      forall repo, In repo repos -> in_watch_band now repo = false).
Proof.
  intros H active outdated total.
  apply calculate_counters in H as (Ht & Ha & Ho & _ & Hu).
  pose proof (classes_partition now repos Hu) as Hp.
  pose proof (count_nonneg (in_watch_band now) repos) as Hb.
  fold active in Ha. fold outdated in Ho. fold total in Ht.
  repeat split; try assumption.
  - lia.
  - intros E. apply count_zero. lia.
  - intros E. apply count_zero in E. lia.
Qed.

Lemma active_outdated_total_witness :
  exists m, _calculate_health_metrics (100 * day) sample_repos = Some m
            /\ read (active_repos m) = 1
            /\ read (outdated_repos m) = 1
            /\ read (total_repos m) = 3
            /\ read (active_repos m) + read (outdated_repos m)
               <= read (total_repos m).
Proof.
  eexists. split; [reflexivity|].
  pose proof (active_outdated_total (100 * day) sample_repos _ eq_refl)
    as (Ha & Ho & Ht & Hle & _).
  split; [exact Ha|]. split; [exact Ho|]. split; [exact Ht | exact Hle].
Defined.

(** ** The target filter *)

Section FilterFacts.

Lemma mem_In x l : PyStr.mem x l = true <-> In x l.
Proof.
  unfold PyStr.mem. rewrite existsb_exists. split.
  - intros (y & Hy & E). apply String.eqb_eq in E. now subst.
  - intros H. exists x. split; [exact H | apply String.eqb_refl].
Qed.

Lemma filter_sublist {A : Type} (p : A -> bool) l :
  sublist (List.filter p l) l.
Proof.
  induction l as [|x l IH]; simpl; [constructor|].
  destruct (p x); now constructor.
Qed.

Lemma filter_targets_all actions : filter_targets "all" actions = actions.
Proof. reflexivity. Qed.

Lemma filter_targets_names target_repos actions :
  target_repos <> "all"%string ->
  filter_targets target_repos actions
  = List.filter (retained (target_names target_repos)) actions.
Proof.
  intros H. unfold filter_targets.
  now destruct (String.eqb_spec target_repos "all").
Qed.

Lemma retained_scoped names action scope :
  target_repo action = Some scope ->
  retained names action = true <-> scope = "all"%string \/ In scope names.
Proof.
  intros E. unfold retained. rewrite E. simpl.
  rewrite orb_true_iff, mem_In, String.eqb_eq. tauto.
Qed.

Lemma retained_scopeless names action :
  target_repo action = None ->
  retained names action = true <-> In "all"%string names.
Proof.
  intros E. unfold retained. rewrite E. simpl.
  rewrite orb_false_r. apply mem_In.
Qed.

End FilterFacts.

Section PyStrFacts.
Import PyStr.

Lemma split_nonempty sep s : split sep s <> [].
Proof.
  destruct s as [|c s]; simpl; [discriminate|].
  destruct (Ascii.eqb c sep); [discriminate|].
  destruct (split sep s); discriminate.
Qed.

(** Splitting loses nothing but the separators. *)
Lemma join_split sep s : join sep (split sep s) = s.
Proof.
  induction s as [|c s IH]; [reflexivity|]. simpl.
  destruct (Ascii.eqb_spec c sep) as [->|Hc].
  - pose proof (split_nonempty sep s).
    cbn [join]. destruct (split sep s) as [|p ps]; [contradiction|].
    cbn [String.app] in *. now rewrite IH.
  - destruct (split sep s) as [|p ps] eqn:E; [now destruct (split_nonempty sep s)|].
    destruct ps as [|q qs]; cbn [join String.app] in *; now rewrite <- IH.
Qed.

Lemma split_no_separator sep s :
  Forall (fun piece => has_char sep piece = false) (split sep s).
Proof.
  induction s as [|c s IH]; simpl; [repeat constructor|].
  destruct (Ascii.eqb c sep) eqn:Hc; [now constructor|].
  destruct (split sep s) as [|p ps]; [repeat constructor; simpl; now rewrite Hc|].
  inversion IH; subst. constructor; [|assumption].
  simpl. now rewrite Hc.
Qed.

(** What [lstrip] leaves does not start with white space, ... *)
Lemma lstrip_head s :
  match lstrip s with
  | EmptyString => True
  | String c _ => isspace c = false
  end.
Proof.
  induction s as [|c s IH]; simpl; [exact I|].
  destruct (isspace c) eqn:E; [exact IH | exact E].
Qed.

(** ... and it is what follows the white space at the start. *)
Lemma lstrip_suffix s :
  exists spaces, s = (spaces ++ lstrip s)%string
                 /\ forall c, has_char c spaces = true -> isspace c = true.
Proof.
  induction s as [|c s (sp & E & Hsp)]; simpl.
  - exists EmptyString. split; [reflexivity|discriminate].
  - destruct (isspace c) eqn:Ec.
    + exists (String c sp).
      split; [change (String c s = String c (sp ++ lstrip s)%string);
              f_equal; exact E|].
      intros c' H. simpl in H. apply orb_true_iff in H as [H|H]; [|auto].
      apply Ascii.eqb_eq in H. now subst.
    + exists EmptyString. split; [reflexivity|discriminate].
Qed.

(** What [rstrip] leaves is what precedes the white space at the end. *)
Lemma rstrip_prefix s :
  exists spaces, s = (rstrip s ++ spaces)%string
                 /\ forall c, has_char c spaces = true -> isspace c = true.
Proof.
  induction s as [|c s (sp & E & Hsp)].
  - exists EmptyString. split; [reflexivity|discriminate].
  - simpl rstrip. destruct (rstrip s) as [|c' r] eqn:Er.
    + change (EmptyString ++ sp)%string with sp in E. subst sp.
      destruct (isspace c) eqn:Ec.
      * exists (String c s). split; [reflexivity|].
        intros c0 H. simpl in H. apply orb_true_iff in H as [H|H]; [|auto].
        apply Ascii.eqb_eq in H. now subst.
      * exists s. split; [reflexivity|exact Hsp].
    + exists sp. split; [|exact Hsp].
      change (String c s = String c (String c' r ++ sp)%string).
      f_equal. exact E.
Qed.

(** Stripping removes white space from both ends and nothing else. *)
Lemma strip_spec s :
  exists before after,
    s = (before ++ strip s ++ after)%string
    /\ (forall c, has_char c before = true -> isspace c = true)
    /\ (forall c, has_char c after = true -> isspace c = true).
Proof.
  destruct (lstrip_suffix s) as (before & E1 & H1).
  destruct (rstrip_prefix (lstrip s)) as (after & E2 & H2).
  exists before, after. unfold strip. rewrite <- E2. auto.
Qed.

End PyStrFacts.

(** C6: with the target "all" the filter returns the candidate list as it
    is.  With any other target, the names are the pieces of the target
    between commas, each stripped of the white space around it; the result
    is a subsequence of the candidates, and an action with a scope is in it
    exactly when it is a candidate and its scope is "all" or one of the
    names. *)
Theorem filter_targets_spec (target_repos : string) (actions : list Action) :
  (target_repos = "all"%string ->
   filter_targets target_repos actions = actions)
  /\ (target_repos <> "all"%string ->
      let names := map PyStr.strip (PyStr.split ","%char target_repos) in
      sublist (filter_targets target_repos actions) actions
      /\ forall action scope,
           target_repo action = Some scope ->
           (In action (filter_targets target_repos actions) <->
            In action actions /\ (scope = "all"%string \/ In scope names))).
Proof.
  split.
  - intros ->. apply filter_targets_all.
  - intros Hne names. rewrite (filter_targets_names _ _ Hne).
    split; [apply filter_sublist|].
    intros action scope Hs. rewrite filter_In.
    now rewrite (retained_scoped _ _ _ Hs).
Qed.

Lemma filter_targets_spec_witness :
  let scoped (scope : string) :=
    {| type := Some "analyze_repository"%string;
       priority := Some PyFloat.f0_8; goal := Some "maintenance"%string;
       target_repo := Some scope; parameters := [];
       calculated_utility := None |} in
  let actions := [analyze_organization_action; scoped "sdk"%string;
                  scoped "docs"%string; scoped "checkout"%string] in
  filter_targets "all" actions = actions
  /\ filter_targets " checkout ,sdk" actions
     = [analyze_organization_action; scoped "sdk"%string;
        scoped "checkout"%string]
  /\ sublist (filter_targets " checkout ,sdk" actions) actions
  /\ (In (scoped "docs"%string) (filter_targets " checkout ,sdk" actions) <->
      In (scoped "docs"%string) actions
      /\ ("docs"%string = "all"%string
          \/ In "docs"%string ["checkout"%string; "sdk"%string])).
Proof.
  intros scoped actions.
  split; [exact (proj1 (filter_targets_spec "all" actions) eq_refl)|].
  split; [reflexivity|].
  assert (Hne : " checkout ,sdk"%string <> "all"%string) by discriminate.
  destruct (proj2 (filter_targets_spec " checkout ,sdk" actions) Hne)
    as [Hsub Hin].
  split; [exact Hsub | exact (Hin (scoped "docs"%string) _ eq_refl)].
Defined.

(** C10: with a target other than "all", an action without a target scope
    is kept exactly when it is a candidate and "all" is one of the names of
    the target, whereas an action whose scope is "all" is kept whenever it
    is a candidate. *)
Theorem scopeless_action_filter (target_repos : string)
    (actions : list Action) (action : Action) :
  target_repos <> "all"%string ->
  target_repo action = None ->
  (In action (filter_targets target_repos actions) <->
   In action actions /\ In "all"%string (target_names target_repos))
  /\ forall other,
       target_repo other = Some "all"%string ->
       (In other (filter_targets target_repos actions) <-> In other actions).
Proof.
  intros Hne Hs. rewrite (filter_targets_names _ _ Hne). split.
  - rewrite filter_In. now rewrite (retained_scopeless _ _ Hs).
  - intros other Ho. rewrite filter_In, (retained_scoped _ _ _ Ho).
    intuition.
Qed.

Lemma scopeless_action_filter_witness :
  let scopeless :=
    {| type := Some "analyze_repository"%string;
       priority := Some PyFloat.f0_8; goal := Some "maintenance"%string;
       target_repo := None; parameters := [];
       calculated_utility := None |} in
  let actions := [scopeless; sync_organization_profile_action] in
  filter_targets "sdk" actions = [sync_organization_profile_action]
  /\ filter_targets " all" actions = actions
  /\ (In scopeless (filter_targets "sdk" actions) <->
      In scopeless actions /\ In "all"%string (target_names "sdk"))
  /\ (In sync_organization_profile_action (filter_targets "sdk" actions) <->
      In sync_organization_profile_action actions).
Proof.
  intros scopeless actions.
  split; [reflexivity|]. split; [reflexivity|].
  assert (Hne : "sdk"%string <> "all"%string) by discriminate.
  destruct (scopeless_action_filter "sdk" actions scopeless Hne eq_refl)
    as [Hin Hall].
  split; [exact Hin | exact (Hall sync_organization_profile_action eq_refl)].
Defined.

(** C7: the health_check selector emits one check_documentation_health
    action, of base priority 0.9 and goal quality, exactly when the
    documentation-gap count is above zero, then one check_activity_health
    action, of base priority 0.7 and goal maintenance, exactly when the
    outdated count is above zero, and nothing else; with both counts at zero
    it returns the empty list. *)
Theorem health_actions (repos : list Repo) (metrics : Metrics) :
  let gaps := read (needs_documentation metrics) in
  let outdated := read (outdated_repos metrics) in
  let documentation := check_documentation_health_action gaps in
  let activity := check_activity_health_action outdated in
  _select_health_actions repos metrics
  = (if 0 <? gaps then [documentation] else [])
    ++ (if 0 <? outdated then [activity] else [])
  /\ type documentation = Some "check_documentation_health"%string
  /\ priority documentation = Some PyFloat.f0_9
  /\ goal documentation = Some "quality"%string
  /\ type activity = Some "check_activity_health"%string
  /\ priority activity = Some PyFloat.f0_7
  /\ goal activity = Some "maintenance"%string
  /\ ((exists a, In a (_select_health_actions repos metrics)
                 /\ type a = Some "check_documentation_health"%string)
      <-> 0 < gaps)
  /\ ((exists a, In a (_select_health_actions repos metrics)
                 /\ type a = Some "check_activity_health"%string)
      <-> 0 < outdated)
  /\ (gaps = 0 -> outdated = 0 -> _select_health_actions repos metrics = []).
Proof.
  intros gaps outdated documentation activity.
  assert (E : _select_health_actions repos metrics
              = (if 0 <? gaps then [documentation] else [])
                ++ (if 0 <? outdated then [activity] else [])).
  { unfold _select_health_actions, documentation, activity, gaps, outdated,
      read.
    destruct (needs_documentation metrics), (outdated_repos metrics);
      reflexivity. }
  rewrite E. repeat (split; [reflexivity|]).
  split; [|split].
  - split.
    + intros (a & Ha & Ht). destruct (Z.ltb_spec 0 gaps); [assumption|].
      destruct (0 <? outdated); simpl in Ha;
        [destruct Ha as [<-|[]]; discriminate | destruct Ha].
    + intros Hg. exists documentation. split; [|reflexivity].
      apply Z.ltb_lt in Hg. rewrite Hg. now left.
  - split.
    + intros (a & Ha & Ht). destruct (Z.ltb_spec 0 outdated); [assumption|].
      rewrite app_nil_r in Ha. destruct (0 <? gaps); simpl in Ha;
        [destruct Ha as [<-|[]]; discriminate | destruct Ha].
    + intros Ho. exists activity. split; [|reflexivity].
      apply Z.ltb_lt in Ho. rewrite Ho. apply in_or_app. right. now left.
  - intros -> ->. reflexivity.
Qed.

Lemma health_actions_witness :
  _select_health_actions sample_repos
    (set_needs_documentation 0 (set_outdated_repos 0 no_metrics)) = []
  /\ _select_health_actions sample_repos
       (set_needs_documentation 2 (set_outdated_repos 1 no_metrics))
     = [check_documentation_health_action 2; check_activity_health_action 1].
Proof.
  split.
  - pose proof (health_actions sample_repos
                  (set_needs_documentation 0 (set_outdated_repos 0 no_metrics)))
      as (_ & _ & _ & _ & _ & _ & _ & _ & _ & Hnone).
    exact (Hnone eq_refl eq_refl).
  - exact (proj1 (health_actions sample_repos
             (set_needs_documentation 2 (set_outdated_repos 1 no_metrics)))).
Defined.

(** * Further properties of the selector and of its callers *)

(** ** The action catalogue *)

Section CatalogueFacts.

Lemma stale_actions_closed_form now repos : forall actions,
  stale_repository_actions now repos = Some actions ->
  actions = map (fun repo => analyze_repository_action (name_of repo)
                               (staleness now repo))
                (List.filter (stale now) repos)
  /\ Forall (fun repo => is_Some (updated_at repo)) repos
  /\ Forall (fun repo => is_Some (name repo)) (List.filter (stale now) repos).
Proof.
  induction repos as [|repo repos IH]; intros actions H.
  - injection H as <-. repeat split; constructor.
  - simpl in H. destruct (updated_at repo) as [u|] eqn:Eu; [|discriminate].
    simpl in H.
    assert (Es : stale now repo = (30 <? days_since now u))
      by (unfold stale; now rewrite Eu).
    assert (Ed : staleness now repo = days_since now u)
      by (unfold staleness; now rewrite Eu).
    cbn [List.filter]. rewrite Es.
    destruct (30 <? days_since now u).
    + destruct (name repo) as [n|] eqn:En; [|discriminate]. simpl in H.
      destruct (stale_repository_actions now repos) as [rest|];
        [|discriminate].
      simpl in H. injection H as <-.
      destruct (IH rest eq_refl) as (-> & Hu & Hn).
      assert (En' : name_of repo = n) by (unfold name_of; now rewrite En).
      cbn [map]. rewrite Ed, En'.
      split; [reflexivity|].
      split; constructor; try assumption; rewrite ?Eu, ?En; eauto.
    + simpl in H.
      destruct (stale_repository_actions now repos) as [rest|];
        [|discriminate].
      simpl in H. injection H as <-.
      destruct (IH rest eq_refl) as (-> & Hu & Hn).
      split; [reflexivity|]. split; [|exact Hn].
      constructor; [rewrite Eu; eauto | exact Hu].
Qed.

Lemma unreadable_or_all_readable (repos : list Repo) :
  (exists repo, In repo repos /\ updated_at repo = None)
  \/ Forall (fun repo => is_Some (updated_at repo)) repos.
Proof.
  induction repos as [|repo repos [(r & Hr & E)|IH]].
  - right. constructor.
  - left. exists r. split; [now right | exact E].
  - destruct (updated_at repo) as [u|] eqn:E.
    + right. constructor; [rewrite E; eauto | exact IH].
    + left. exists repo. split; [now left | exact E].
Qed.

Lemma not_both_readable_and_unreadable (repos : list Repo) :
  Forall (fun repo => is_Some (updated_at repo)) repos ->
  ~ exists repo, In repo repos /\ updated_at repo = None.
Proof.
  rewrite List.Forall_forall. intros H (r & Hr & E).
  destruct (H r Hr) as [u Hu]. congruence.
Qed.

(** Either some repository cannot be analysed, or every timestamp can be
    read and every stale repository has a name. *)
Lemma unanalysable_or_fine now (repos : list Repo) :
  (exists repo, In repo repos /\ unanalysable now repo)
  \/ (Forall (fun repo => is_Some (updated_at repo)) repos
      /\ Forall (fun repo => is_Some (name repo))
                (List.filter (stale now) repos)).
Proof.
  induction repos as [|repo repos [(r & Hr & E)|[Hu Hn]]].
  - right. split; constructor.
  - left. exists r. split; [now right | exact E].
  - unfold unanalysable.
    destruct (updated_at repo) as [u|] eqn:Eu;
      [|left; exists repo; split; [now left | now left]].
    cbn [List.filter]. destruct (stale now repo) eqn:Es.
    + destruct (name repo) as [n|] eqn:En.
      * right. split; constructor; try assumption; rewrite ?Eu, ?En; eauto.
      * left. exists repo. split; [now left | right; now split].
    + right. split; [|exact Hn].
      constructor; [rewrite Eu; eauto | exact Hu].
Qed.

Lemma stale_actions_total now repos :
  Forall (fun repo => is_Some (updated_at repo)) repos ->
  Forall (fun repo => is_Some (name repo)) (List.filter (stale now) repos) ->
  is_Some (stale_repository_actions now repos).
Proof.
  induction 1 as [|repo repos [u Hu] _ IH]; simpl; [eauto|].
  unfold stale at 1. rewrite Hu. simpl. intros Hn.
  destruct (30 <? days_since now u).
  - inversion Hn as [|? ? [n En] Hn']; subst. rewrite En. simpl.
    destruct (IH Hn') as [rest ->]. simpl. eauto.
  - simpl. destruct (IH Hn) as [rest ->]. simpl. eauto.
Qed.

Lemma unanalysable_raises now repos repo :
  In repo repos -> unanalysable now repo ->
  stale_repository_actions now repos = None.
Proof.
  intros Hr Hbad.
  destruct (stale_repository_actions now repos) as [rest|] eqn:E;
    [|reflexivity].
  apply stale_actions_closed_form in E as (_ & Hu & Hn).
  rewrite List.Forall_forall in Hu, Hn.
  destruct Hbad as [Eu|[Es En]].
  - destruct (Hu repo Hr) as [u Hu']. congruence.
  - destruct (Hn repo) as [n Hn']; [|congruence].
    apply filter_In. now split.
Qed.

End CatalogueFacts.

(** X1: when it returns, the analyze selector gives the organisation-wide
    analysis first and then, in the order of the repositories, one
    analyze_repository action for each repository more than 30 whole days
    stale, scoped to its name and carrying its staleness; no other
    repository gets an action, and every stale repository has a name. *)
Theorem analysis_actions (now : Z) (repos : list Repo) (metrics : Metrics)
    (actions : list Action) :
  _select_analysis_actions now repos metrics = Some actions ->
  actions
  = analyze_organization_action
    :: map (fun repo => analyze_repository_action (name_of repo)
                          (staleness now repo))
           (List.filter (stale now) repos)
  /\ Z.of_nat (length actions) = 1 + count (stale now) repos
  /\ forall repo, In repo repos -> stale now repo = true ->
       is_Some (name repo).
Proof.
  unfold _select_analysis_actions. intros H.
  destruct (stale_repository_actions now repos) as [rest|] eqn:E;
    [|discriminate].
  injection H as <-.
  destruct (stale_actions_closed_form _ _ _ E) as (-> & _ & Hn).
  split; [reflexivity|]. split.
  - unfold count. simpl length. rewrite length_map. lia.
  - intros repo Hr Hs. rewrite List.Forall_forall in Hn.
    apply Hn, filter_In. now split.
Qed.

Lemma analysis_actions_witness :
  exists actions,
    _select_analysis_actions (100 * day) sample_repos no_metrics = Some actions
    /\ map target_repo actions
       = [Some "all"%string; Some "sdk"%string; Some "legacy"%string]
    /\ Z.of_nat (length actions) = 3.
Proof.
  eexists. split; [reflexivity|].
  destruct (analysis_actions (100 * day) sample_repos no_metrics _ eq_refl)
    as (_ & Hlen & _).
  split; [reflexivity | exact Hlen].
Defined.

(** The analyze selector raises exactly when some repository cannot be
    analysed: its timestamp cannot be read, or it is stale and has no
    name. *)
Lemma analysis_raises (now : Z) (repos : list Repo) (metrics : Metrics) :
  _select_analysis_actions now repos metrics = None <->
  exists repo, In repo repos /\ unanalysable now repo.
Proof.
  unfold _select_analysis_actions. split.
  - intros H. destruct (unanalysable_or_fine now repos) as [Hex|[Hu Hn]];
      [exact Hex|].
    destruct (stale_actions_total now repos Hu Hn) as [rest E].
    rewrite E in H. discriminate.
  - intros (repo & Hr & Hbad).
    now rewrite (unanalysable_raises now repos repo Hr Hbad).
Qed.

Lemma aggregator_raised now repos :
  _calculate_health_metrics now repos = None ->
  exists repo, In repo repos /\ updated_at repo = None.
Proof.
  intros H. destruct (unreadable_or_all_readable repos) as [Hex|Hall];
    [exact Hex|].
  destruct (calculate_total now repos Hall) as [m E]. congruence.
Qed.

Lemma unreadable_raises now repos repo :
  In repo repos -> updated_at repo = None ->
  _calculate_health_metrics now repos = None.
Proof.
  intros Hr Hu.
  destruct (_calculate_health_metrics now repos) as [m|] eqn:E;
    [|reflexivity].
  apply calculate_counters in E as (_ & _ & _ & _ & Hall).
  destruct (not_both_readable_and_unreadable _ Hall). eauto.
Qed.

(** X2: the health metrics aggregator raises exactly when the timestamp of
    some repository cannot be read; it never raises for any other reason. *)
Theorem aggregator_raises (now : Z) (repos : list Repo) :
  _calculate_health_metrics now repos = None <->
  exists repo, In repo repos /\ updated_at repo = None.
Proof.
  split.
  - apply aggregator_raised.
  - intros (repo & Hr & Hu). exact (unreadable_raises now repos repo Hr Hu).
Qed.

(** ** The language histogram and the other keys *)

Section HistogramFacts.

Lemma language_count_cons lang repo repos :
  language_count lang (repo :: repos)
  = (if has_language lang repo then 1 else 0) + language_count lang repos.
Proof. apply count_cons. Qed.

Lemma language_count_nonneg lang repos : 0 <= language_count lang repos.
Proof. apply count_nonneg. Qed.

Lemma holds_skip h f repo :
  holds h f -> (forall lang, has_language lang repo = false) ->
  holds h (fun lang => f lang + if has_language lang repo then 1 else 0).
Proof.
  intros Hh Hno lang. rewrite (Hno lang), Z.add_0_r. apply Hh.
Qed.

Lemma holds_insert h f repo c l :
  holds h f -> (forall lang, 0 <= f lang) ->
  language repo = Some (String c l) ->
  holds (<[String c l := default 0 (h !! String c l) + 1]> h)
        (fun lang => f lang + if has_language lang repo then 1 else 0).
Proof.
  intros Hh Hf El lang. unfold has_language. rewrite El.
  destruct (String.eqb_spec (String c l) lang) as [<-|Hne].
  - rewrite lookup_insert_eq, (Hh (String c l)).
    pose proof (Hf (String c l)).
    destruct (Z.ltb_spec 0 (f (String c l))),
      (Z.ltb_spec 0 (f (String c l) + 1)); simpl; try lia; f_equal; lia.
  - rewrite lookup_insert_ne by exact Hne. rewrite Z.add_0_r. apply Hh.
Qed.

Lemma count_repo_rest now m repo m' h f :
  count_repo now m repo = Some m' ->
  languages m = Some h -> holds h f -> (forall lang, 0 <= f lang) ->
  (exists h', languages m' = Some h'
              /\ holds h' (fun lang =>
                             f lang + if has_language lang repo then 1 else 0))
  /\ security_alerts m' = security_alerts m
  /\ last_activity_stats m' = last_activity_stats m.
Proof.
  unfold count_repo. intros H Hl Hh Hf.
  destruct m as [mt ma mo ms md ml mx]; simpl in *. subst ml.
  destruct (updated_at repo) as [u|]; [|discriminate]. simpl in H.
  destruct (language repo) as [[|c l]|] eqn:El;
    destruct (days_since now u <=? 30), (90 <? days_since now u);
    destruct ma, mo; simpl in H; try discriminate;
    destruct (lacks_description repo), md; simpl in H; try discriminate;
    injection H as <-; simpl;
    (split; [|split; reflexivity]); eexists; (split; [reflexivity|]);
    first [ now apply holds_insert
          | apply holds_skip; [exact Hh|];
            intros lang; unfold has_language; now rewrite El ].
Qed.

Lemma count_repos_rest now repos : forall m m' h f,
  count_repos now m repos = Some m' ->
  languages m = Some h -> holds h f -> (forall lang, 0 <= f lang) ->
  (exists h', languages m' = Some h'
              /\ holds h' (fun lang => f lang + language_count lang repos))
  /\ security_alerts m' = security_alerts m
  /\ last_activity_stats m' = last_activity_stats m.
Proof.
  induction repos as [|repo repos IH]; intros m m' h f H Hl Hh Hf.
  - injection H as <-. split; [|auto]. exists h. split; [exact Hl|].
    intros lang. unfold language_count, count. simpl.
    rewrite Z.add_0_r. apply Hh.
  - simpl in H. destruct (count_repo now m repo) as [m1|] eqn:E;
      [|discriminate]. simpl in H.
    destruct (count_repo_rest _ _ _ _ _ _ E Hl Hh Hf)
      as ((h1 & Hl1 & Hh1) & Hs1 & Hx1).
    destruct (IH _ _ _ _ H Hl1 Hh1) as ((h' & Hl' & Hh') & Hs & Hx).
    { intros lang. pose proof (Hf lang).
      destruct (has_language lang repo); lia. }
    split; [|split; congruence].
    exists h'. split; [exact Hl'|]. intros lang.
    rewrite (Hh' lang), language_count_cons, Z.add_assoc. reflexivity.
Qed.

End HistogramFacts.

(** X3: the language histogram of a non-empty repository list maps every
    non-empty language name to the number of repositories that have it, and
    has no entry for any other name: none for a language no repository has,
    and none for the empty name. *)
Theorem language_histogram (now : Z) (repos : list Repo) (m : Metrics) :
  repos <> [] ->
  _calculate_health_metrics now repos = Some m ->
  exists h,
    languages m = Some h
    /\ (forall lang,
          h !! lang = if 0 <? language_count lang repos
                      then Some (language_count lang repos) else None)
    /\ h !! EmptyString = None.
Proof.
  intros Hne H. destruct repos as [|repo repos]; [contradiction|].
  unfold _calculate_health_metrics in H.
  eapply (count_repos_rest _ _ _ _ ∅ (fun _ => 0)) in H
    as ((h & Hl & Hh) & _ & _); [|reflexivity| |intros; lia].
  - exists h. split; [exact Hl|]. split; [exact Hh|].
    rewrite (Hh EmptyString).
    assert (E : language_count EmptyString (repo :: repos) = 0).
    { apply count_zero. intros r _. unfold has_language.
      now destruct (language r) as [[|c l]|]. }
    now rewrite E.
  - intros lang. simpl. apply lookup_empty.
Qed.

Lemma language_histogram_witness :
  exists m h,
    _calculate_health_metrics (100 * day)
      (sample_repos ++ sample_repos) = Some m
    /\ languages m = Some h
    /\ h !! "Python"%string = Some 2
    /\ h !! "Rust"%string = None
    /\ h !! EmptyString = None.
Proof.
  assert (Hne : sample_repos ++ sample_repos <> []) by discriminate.
  destruct (_calculate_health_metrics (100 * day)
              (sample_repos ++ sample_repos)) as [m|] eqn:E;
    [|exfalso; revert E; vm_compute; discriminate].
  destruct (language_histogram _ _ _ Hne E) as (h & Hl & Hh & He).
  exists m, h. split; [reflexivity|]. split; [exact Hl|].
  split; [exact (Hh "Python"%string)|].
  split; [exact (Hh "Rust"%string) | exact He].
Defined.

(** X4: on a non-empty repository list the aggregator returns a dictionary
    with every key: the four counters, a language histogram, security_alerts
    at 0 and last_activity_stats empty, the last two whatever the
    repositories are. *)
Theorem metrics_keys (now : Z) (repos : list Repo) (m : Metrics) :
  repos <> [] ->
  _calculate_health_metrics now repos = Some m ->
  total_repos m = Some (Z.of_nat (length repos))
  /\ active_repos m = Some (count (is_active now) repos)
  /\ outdated_repos m = Some (count (is_outdated now) repos)
  /\ needs_documentation m = Some (count short_description repos)
  /\ is_Some (languages m)
  /\ security_alerts m = Some 0
  /\ last_activity_stats m = Some ∅.
Proof.
  intros Hne H. destruct repos as [|repo repos]; [contradiction|].
  unfold _calculate_health_metrics in H.
  pose proof H as H'.
  eapply count_repos_counters in H as [Hc _]; [|reflexivity].
  eapply (count_repos_rest _ _ _ _ ∅ (fun _ => 0)) in H'
    as ((h & Hl & _) & Hs & Hx);
    [|reflexivity|intros lang; apply lookup_empty|intros; lia].
  unfold counters in Hc.
  destruct (total_repos m), (active_repos m), (outdated_repos m),
    (needs_documentation m); try discriminate.
  injection Hc as -> -> -> ->. rewrite Hl, Hs, Hx. simpl.
  repeat split; eauto.
Qed.

Lemma metrics_keys_witness :
  exists m,
    _calculate_health_metrics (100 * day) sample_repos = Some m
    /\ total_repos m = Some 3
    /\ security_alerts m = Some 0.
Proof.
  eexists. split; [reflexivity|].
  assert (Hne : sample_repos <> []) by discriminate.
  destruct (metrics_keys (100 * day) sample_repos _ Hne eq_refl)
    as (Ht & _ & _ & _ & _ & Hs & _).
  split; [exact Ht | exact Hs].
Defined.

(** ** [select_actions] from end to end *)

Section SelectFacts.
Import PyFloat PyFloatFacts.

Lemma select_actions_candidates now action_type target_repos context :
  select_actions now action_type target_repos context
  = (actions ← candidate_actions now action_type context;
     Some (_prioritize_actions (filter_targets target_repos actions) context)).
Proof. reflexivity. Qed.

Lemma not_named action_type :
  ~ In action_type named_selectors ->
  String.eqb action_type "analyze" = false
  /\ String.eqb action_type "sync" = false
  /\ String.eqb action_type "health_check" = false
  /\ String.eqb action_type "security_scan" = false.
Proof.
  intros H. repeat split; apply String.eqb_neq; intros ->; apply H;
    simpl; tauto.
Qed.

Lemma candidate_fallback now action_type context :
  ~ In action_type named_selectors ->
  candidate_actions now action_type context
  = _select_comprehensive_actions now (default [] (repositories context))
      (default no_metrics (health_metrics context)).
Proof.
  intros H. destruct (not_named _ H) as (E1 & E2 & E3 & E4).
  unfold candidate_actions. now rewrite E1, E2, E3, E4.
Qed.

Lemma health_actions_lesser repos metrics :
  Forall lesser_action (_select_health_actions repos metrics).
Proof.
  unfold _select_health_actions. apply Forall_app. split.
  - destruct (needs_documentation metrics) as [n|]; [|constructor].
    destruct (0 <? n); repeat constructor.
  - destruct (outdated_repos metrics) as [n|]; [|constructor].
    destruct (0 <? n); repeat constructor.
Qed.

Lemma stale_actions_lesser now repos actions :
  stale_repository_actions now repos = Some actions ->
  Forall lesser_action actions.
Proof.
  intros H. rewrite (proj1 (stale_actions_closed_form _ _ _ H)).
  apply List.Forall_forall. intros a Ha.
  apply in_map_iff in Ha as (repo & <- & _). constructor.
Qed.

Lemma analysis_lesser now repos metrics actions :
  _select_analysis_actions now repos metrics = Some actions ->
  exists rest, actions = analyze_organization_action :: rest
               /\ Forall lesser_action rest.
Proof.
  unfold _select_analysis_actions. intros H.
  destruct (stale_repository_actions now repos) as [rest|] eqn:E;
    [|discriminate].
  injection H as <-. exists rest. split; [reflexivity|].
  now apply stale_actions_lesser in E.
Qed.

Lemma comprehensive_lesser now repos metrics actions :
  _select_comprehensive_actions now repos metrics = Some actions ->
  exists rest, actions = analyze_organization_action :: rest
               /\ Forall lesser_action rest.
Proof.
  unfold _select_comprehensive_actions. intros H.
  destruct (_select_analysis_actions now repos metrics) as [analysis|] eqn:E;
    [|discriminate].
  injection H as <-. apply analysis_lesser in E as (rest & -> & Hr).
  exists (rest ++ _select_sync_actions repos metrics
               ++ _select_health_actions repos metrics).
  split; [reflexivity|]. apply Forall_app. split; [exact Hr|].
  apply Forall_app. split; [repeat constructor | apply health_actions_lesser].
Qed.

Lemma lesser_utility context a :
  lesser_action a -> ltb f1_1 (utility_of context a) = false.
Proof.
  intros [repo days| |n|n]; unfold utility_of, goal_is; simpl;
    try destruct (3 <? _); reflexivity.
Qed.

Lemma lesser_no_security a :
  lesser_action a ->
  goal a <> Some "security"%string
  /\ type a <> Some "security_scan_organization"%string.
Proof. intros [repo days| |n|n]; split; discriminate. Qed.

Lemma lesser_scope a : lesser_action a -> is_Some (target_repo a).
Proof. intros [repo days| |n|n]; simpl; eauto. Qed.

Lemma lesser_type a :
  lesser_action a -> exists t, type a = Some t /\ In t handled_types.
Proof.
  intros [repo days| |n|n]; eexists; (split; [reflexivity|]); simpl; tauto.
Qed.

(** An element that none of the others exceeds stays in front. *)
Lemma sorted_reverse_head {A : Type} (key : A -> float) x l :
  Forall (fun y => ltb (key x) (key y) = false) l ->
  sorted_reverse key (x :: l) = x :: sorted_reverse key l.
Proof.
  intros H. simpl.
  assert (H' : Forall (fun y => ltb (key x) (key y) = false)
                      (sorted_reverse key l)).
  { eapply Permutation_Forall; [symmetry; apply sorted_reverse_perm|exact H]. }
  destruct H' as [|y l' Hy _]; [reflexivity|]. simpl. now rewrite Hy.
Qed.

Lemma filter_targets_sublist target_repos actions :
  sublist (filter_targets target_repos actions) actions.
Proof.
  unfold filter_targets. destruct (negb _); [apply filter_sublist|reflexivity].
Qed.

Lemma filter_targets_In target_repos actions a :
  In a (filter_targets target_repos actions) -> In a actions.
Proof.
  unfold filter_targets. destruct (negb _); [|auto].
  intros H. now apply filter_In in H.
Qed.

Lemma filter_targets_cons_all target_repos a actions :
  target_repo a = Some "all"%string ->
  filter_targets target_repos (a :: actions)
  = a :: filter_targets target_repos actions.
Proof.
  intros Ha. unfold filter_targets. destruct (negb _); [|reflexivity].
  simpl. unfold retained at 1. rewrite Ha. simpl. now rewrite orb_true_r.
Qed.

Lemma filter_targets_all_scoped target_repos actions :
  Forall (fun a => target_repo a = Some "all"%string) actions ->
  filter_targets target_repos actions = actions.
Proof.
  induction 1 as [|a actions Ha _ IH];
    [unfold filter_targets; now destruct (negb _)|].
  now rewrite (filter_targets_cons_all _ _ _ Ha), IH.
Qed.

End SelectFacts.

Section SelectOrigin.
Import PyFloat PyFloatFacts.

Lemma selected_origin now action_type target_repos context out :
  select_actions now action_type target_repos context = Some out ->
  exists candidates,
    candidate_actions now action_type context = Some candidates
    /\ out = _prioritize_actions (filter_targets target_repos candidates)
                                 context
    /\ forall a, In a out ->
         exists a0, In a0 (filter_targets target_repos candidates)
                    /\ a = with_utility context a0.
Proof.
  rewrite select_actions_candidates. intros H.
  destruct (candidate_actions now action_type context) as [candidates|];
    [|discriminate].
  injection H as <-. exists candidates. repeat split.
  intros a Ha. apply (Permutation_in _ (prioritize_perm _ _)) in Ha.
  apply in_map_iff in Ha as (a0 & <- & Ha0). eauto.
Qed.

Lemma health_actions_all_scoped repos metrics :
  Forall (fun a => target_repo a = Some "all"%string)
         (_select_health_actions repos metrics).
Proof.
  unfold _select_health_actions. apply Forall_app. split.
  - destruct (needs_documentation metrics) as [n|]; [|constructor].
    destruct (0 <? n); repeat constructor.
  - destruct (outdated_repos metrics) as [n|]; [|constructor].
    destruct (0 <? n); repeat constructor.
Qed.

Lemma filter_permutation {A : Type} (p : A -> bool) l1 l2 :
  Permutation l1 l2 -> Permutation (List.filter p l1) (List.filter p l2).
Proof.
  induction 1 as [|x l1 l2 _ IH|x y l|l1 l2 l3 _ IH1 _ IH2]; simpl.
  - constructor.
  - destruct (p x); [now constructor | exact IH].
  - destruct (p x), (p y); try reflexivity. apply perm_swap.
  - now transitivity (List.filter p l2).
Qed.

Lemma filter_descending {A : Type} (key : A -> float) (p : A -> bool) l :
  descending key l -> descending key (List.filter p l).
Proof.
  induction 1 as [|x l Hs IH Hx]; simpl; [constructor|].
  destruct (p x); [|exact IH]. constructor; [exact IH|].
  rewrite List.Forall_forall in Hx |- *. intros y Hy.
  apply filter_In in Hy as [Hy _]. now apply Hx.
Qed.

Lemma filter_swap {A : Type} (p q : A -> bool) l :
  List.filter p (List.filter q l) = List.filter q (List.filter p l).
Proof.
  induction l as [|x l IH]; [reflexivity|]. simpl.
  destruct (p x) eqn:Ep, (q x) eqn:Eq; simpl; rewrite ?Ep, ?Eq, IH;
    reflexivity.
Qed.

Lemma filter_with_utility names context actions :
  List.filter (retained names) (map (with_utility context) actions)
  = map (with_utility context) (List.filter (retained names) actions).
Proof.
  induction actions as [|a actions IH]; [reflexivity|]. simpl.
  change (retained names (with_utility context a)) with (retained names a).
  destruct (retained names a); simpl; now rewrite IH.
Qed.

End SelectOrigin.

(** X5: any action type other than analyze, sync, health_check and
    security_scan selects the comprehensive bundle, and no action of that
    bundle is a security scan or has the goal security. *)
Theorem fallback_is_comprehensive (now : Z) (action_type target_repos : string)
    (context : Context) :
  ~ In action_type named_selectors ->
  select_actions now action_type target_repos context
  = (actions ← _select_comprehensive_actions now
                 (default [] (repositories context))
                 (default no_metrics (health_metrics context));
     Some (_prioritize_actions (filter_targets target_repos actions) context))
  /\ forall out a,
       select_actions now action_type target_repos context = Some out ->
       In a out ->
       goal a <> Some "security"%string
       /\ type a <> Some "security_scan_organization"%string.
Proof.
  intros Hn. split.
  - now rewrite select_actions_candidates, candidate_fallback.
  - intros out a H Ha.
    apply selected_origin in H as (candidates & Hc & _ & Hin).
    destruct (Hin a Ha) as (a0 & Ha0 & ->).
    apply filter_targets_In in Ha0.
    rewrite candidate_fallback in Hc by exact Hn.
    apply comprehensive_lesser in Hc as (rest & -> & Hr).
    destruct Ha0 as [<-|Ha0]; [split; discriminate|].
    rewrite List.Forall_forall in Hr.
    exact (lesser_no_security _ (Hr _ Ha0)).
Qed.

Lemma fallback_is_comprehensive_witness :
  let context := context_of sample_repos
                   (set_needs_documentation 2 (set_outdated_repos 1 no_metrics)) in
  exists out,
    select_actions (100 * day) "everything" "all" context = Some out
    /\ map type out
       = [Some "analyze_organization"; Some "sync_organization_profile";
          Some "check_documentation_health"; Some "analyze_repository";
          Some "analyze_repository"; Some "check_activity_health"]%string
    /\ forall a, In a out -> goal a <> Some "security"%string.
Proof.
  intros context. eexists. split; [reflexivity|]. split; [reflexivity|].
  assert (Hn : ~ In "everything"%string named_selectors).
  { simpl. intros [H|[H|[H|[H|[]]]]]; discriminate. }
  intros a Ha.
  exact (proj1 (proj2 (fallback_is_comprehensive (100 * day) "everything"
                         "all" context Hn) _ a eq_refl Ha)).
Defined.

(** X6: the sync, health_check and security_scan selectors emit
    organisation-wide actions only, so that [select_actions] never raises
    for them and returns the same actions for every target
    specification. *)
Theorem organisation_wide_ignore_target (now : Z)
    (action_type target_repos : string) (context : Context) :
  In action_type ["sync"; "health_check"; "security_scan"]%string ->
  select_actions now action_type target_repos context
  = select_actions now action_type "all" context
  /\ is_Some (select_actions now action_type target_repos context).
Proof.
  intros H. rewrite !select_actions_candidates.
  assert (Hc : exists candidates,
             candidate_actions now action_type context = Some candidates
             /\ Forall (fun a => target_repo a = Some "all"%string) candidates).
  { destruct H as [<-|[<-|[<-|[]]]]; eexists; (split; [reflexivity|]).
    - repeat constructor.
    - apply health_actions_all_scoped.
    - repeat constructor. }
  destruct Hc as (candidates & -> & Hall). simpl.
  rewrite filter_targets_all_scoped by exact Hall. split; eauto.
Qed.

Lemma organisation_wide_ignore_target_witness :
  let context := context_of sample_repos
                   (set_needs_documentation 2 (set_outdated_repos 1 no_metrics)) in
  select_actions 0 "health_check" "sdk, docs" context
  = select_actions 0 "health_check" "all" context
  /\ is_Some (select_actions 0 "health_check" "sdk, docs" context).
Proof.
  intros context.
  apply (organisation_wide_ignore_target 0 "health_check" "sdk, docs" context).
  simpl. tauto.
Defined.

(** X7: when the analyze selector or the comprehensive bundle is chosen
    and [select_actions] returns, the first action of the result is the
    organisation-wide analysis, with the calculated utility 1.1, whatever
    the repositories, the metrics and the target specification. *)
Theorem organisation_analysis_first (now : Z)
    (action_type target_repos : string) (context : Context)
    (out : list Action) :
  action_type = "analyze"%string \/ ~ In action_type named_selectors ->
  select_actions now action_type target_repos context = Some out ->
  exists rest,
    out = set_calculated_utility PyFloat.f1_1 analyze_organization_action
          :: rest.
Proof.
  intros Ht H. rewrite select_actions_candidates in H.
  assert (Hc : exists rest,
             candidate_actions now action_type context
             = Some (analyze_organization_action :: rest)
             /\ Forall lesser_action rest).
  { destruct (candidate_actions now action_type context) as [c|] eqn:Ec;
      [|discriminate].
    destruct Ht as [->|Hn].
    - apply (analysis_lesser now (default [] (repositories context))
               (default no_metrics (health_metrics context)))
        in Ec as (rest & -> & Hr).
      exists rest. split; [reflexivity | exact Hr].
    - rewrite candidate_fallback in Ec by exact Hn.
      apply comprehensive_lesser in Ec as (rest & -> & Hr).
      exists rest. split; [reflexivity | exact Hr]. }
  destruct Hc as (rest & Ec & Hr). rewrite Ec in H. simpl in H.
  injection H as <-.
  rewrite filter_targets_cons_all by reflexivity.
  unfold _prioritize_actions. cbn [map].
  rewrite sorted_reverse_head; [eexists; reflexivity|].
  apply List.Forall_forall. intros y Hy.
  apply in_map_iff in Hy as (a & <- & Ha).
  apply filter_targets_In in Ha. rewrite List.Forall_forall in Hr.
  exact (lesser_utility context a (Hr a Ha)).
Qed.

Lemma organisation_analysis_first_witness :
  let context := context_of sample_repos
                   (set_needs_documentation 2 (set_outdated_repos 9 no_metrics)) in
  exists out rest,
    select_actions (100 * day) "analyze" "legacy" context = Some out
    /\ out = set_calculated_utility PyFloat.f1_1 analyze_organization_action
             :: rest
    /\ length out = 2%nat.
Proof.
  intros context.
  destruct (select_actions (100 * day) "analyze" "legacy" context)
    as [out|] eqn:E; [|exfalso; revert E; vm_compute; discriminate].
  destruct (organisation_analysis_first _ _ _ _ out (or_introl eq_refl) E)
    as (rest & Hout).
  exists out, rest. split; [reflexivity|]. split; [exact Hout|].
  revert E. vm_compute. intros [= <-]. reflexivity.
Defined.

Section TargetFacts.

Lemma candidates_scoped now action_type context candidates :
  candidate_actions now action_type context = Some candidates ->
  Forall (fun a => is_Some (target_repo a)) candidates.
Proof.
  unfold candidate_actions. intros H.
  assert (Hl : forall l, Forall lesser_action l ->
                         Forall (fun a => is_Some (target_repo a)) l).
  { intros l Hl. eapply List.Forall_impl; [|exact Hl]. apply lesser_scope. }
  destruct (String.eqb action_type "analyze").
  { apply analysis_lesser in H as (rest & -> & Hr).
    constructor; [simpl; eauto | auto]. }
  destruct (String.eqb action_type "sync").
  { injection H as <-. repeat constructor. simpl. eauto. }
  destruct (String.eqb action_type "health_check").
  { injection H as <-. apply Hl, health_actions_lesser. }
  destruct (String.eqb action_type "security_scan").
  { injection H as <-. repeat constructor. simpl. eauto. }
  apply comprehensive_lesser in H as (rest & -> & Hr).
  constructor; [simpl; eauto | auto].
Qed.

Lemma candidates_stale now action_type context candidates repo :
  action_type = "analyze"%string \/ ~ In action_type named_selectors ->
  candidate_actions now action_type context = Some candidates ->
  In repo (default [] (repositories context)) -> stale now repo = true ->
  In (analyze_repository_action (name_of repo) (staleness now repo))
     candidates.
Proof.
  intros Ht H Hr Hs.
  assert (Hin : forall rest,
            stale_repository_actions now (default [] (repositories context))
            = Some rest ->
            In (analyze_repository_action (name_of repo)
                  (staleness now repo)) rest).
  { intros rest E. rewrite (proj1 (stale_actions_closed_form _ _ _ E)).
    apply in_map_iff. exists repo. split; [reflexivity|].
    apply filter_In. now split. }
  destruct Ht as [->|Hn].
  - unfold candidate_actions in H. simpl in H.
    unfold _select_analysis_actions in H.
    destruct (stale_repository_actions now _) as [rest|] eqn:E;
      [|discriminate].
    injection H as <-. right. now apply Hin.
  - rewrite candidate_fallback in H by exact Hn.
    unfold _select_comprehensive_actions, _select_analysis_actions in H.
    destruct (stale_repository_actions now _) as [rest|] eqn:E;
      [|discriminate].
    simpl in H. injection H as <-. right. apply in_or_app. left.
    now apply Hin.
Qed.

End TargetFacts.

(** X8: with a target specification other than "all", every action that
    [select_actions] returns is organisation-wide or scoped to one of the
    names of the target, and under the analyze selector or the
    comprehensive bundle every repository that is more than 30 days stale
    and named in the target has its analyze_repository action in the
    result. *)
Theorem selection_respects_target (now : Z)
    (action_type target_repos : string) (context : Context)
    (out : list Action) :
  target_repos <> "all"%string ->
  select_actions now action_type target_repos context = Some out ->
  (forall a, In a out ->
     exists scope, target_repo a = Some scope
                   /\ (scope = "all"%string
                       \/ In scope (target_names target_repos)))
  /\ (action_type = "analyze"%string \/ ~ In action_type named_selectors ->
      forall repo repo_name,
        In repo (default [] (repositories context)) ->
        stale now repo = true ->
        name repo = Some repo_name ->
        In repo_name (target_names target_repos) ->
        exists a, In a out
                  /\ type a = Some "analyze_repository"%string
                  /\ target_repo a = Some repo_name).
Proof.
  intros Hne H.
  apply selected_origin in H as (candidates & Hc & Hout & Hin).
  rewrite (filter_targets_names _ _ Hne) in Hin, Hout. split.
  - intros a Ha. destruct (Hin a Ha) as (a0 & Ha0 & ->).
    apply filter_In in Ha0 as [Ha0 Hr].
    pose proof (candidates_scoped _ _ _ _ Hc) as Hs.
    rewrite List.Forall_forall in Hs. destruct (Hs _ Ha0) as [scope E].
    exists scope. split; [exact E|]. now apply (retained_scoped _ a0).
  - intros Ht repo repo_name Hrepo Hstale En Hname.
    pose proof (candidates_stale _ _ _ _ repo Ht Hc Hrepo Hstale) as Hcand.
    assert (En' : name_of repo = repo_name)
      by (unfold name_of; now rewrite En).
    rewrite En' in Hcand.
    exists (with_utility context
              (analyze_repository_action repo_name (staleness now repo))).
    split; [|split; reflexivity]. subst out.
    apply (Permutation_in _ (Permutation_sym (prioritize_perm _ _))).
    apply in_map. apply filter_In. split; [exact Hcand|].
    apply (retained_scoped _ _ repo_name); [reflexivity | now right].
Qed.

Lemma selection_respects_target_witness :
  let context := context_of sample_repos no_metrics in
  exists out,
    select_actions (100 * day) "analyze" " legacy , docs" context = Some out
    /\ map target_repo out = [Some "all"%string; Some "legacy"%string]
    /\ forall a, In a out ->
         exists scope, target_repo a = Some scope
                       /\ (scope = "all"%string
                           \/ In scope ["legacy"%string; "docs"%string]).
Proof.
  intros context. eexists. split; [reflexivity|]. split; [reflexivity|].
  assert (Hne : " legacy , docs"%string <> "all"%string) by discriminate.
  exact (proj1 (selection_respects_target (100 * day) "analyze"
                  " legacy , docs" context _ Hne eq_refl)).
Defined.

(** X9: filtering by target and prioritizing commute: on base priorities
    that are numbers, prioritizing the filtered candidates, as
    [select_actions] does, gives what filtering the prioritized candidates
    would give. *)
Theorem filter_prioritize_commute (context : Context)
    (target_repos : string) (actions : list Action) :
  priorities_are_numbers actions ->
  _prioritize_actions (filter_targets target_repos actions) context
  = filter_targets target_repos (_prioritize_actions actions context).
Proof.
  intros Hn. unfold filter_targets. destruct (negb _); [|reflexivity].
  set (names := target_names target_repos).
  unfold _prioritize_actions. symmetry.
  rewrite <- filter_with_utility.
  apply sorted_reverse_unique.
  - rewrite filter_with_utility. apply with_utility_numbers.
    unfold priorities_are_numbers in *. rewrite List.Forall_forall in Hn |- *.
    intros a Ha. apply filter_In in Ha as [Ha _]. now apply Hn.
  - apply filter_permutation, sorted_reverse_perm.
  - apply filter_descending, sorted_reverse_descending,
      with_utility_numbers, Hn.
  - intros k. unfold with_key.
    rewrite filter_swap, (filter_swap _ (retained names)).
    f_equal. apply sorted_reverse_stable.
Qed.

Lemma filter_prioritize_commute_witness :
  let context := context_of sample_repos (set_outdated_repos 5 no_metrics) in
  let actions :=
    [analyze_repository_action "sdk" 50;
     sync_organization_profile_action;
     analyze_repository_action "docs" 70;
     analyze_organization_action] in
  priorities_are_numbers actions
  /\ _prioritize_actions (filter_targets "docs" actions) context
     = filter_targets "docs" (_prioritize_actions actions context).
Proof.
  intros context actions.
  assert (H : priorities_are_numbers actions).
  { repeat constructor; simpl; intros p [= <-]; reflexivity. }
  split; [exact H | exact (filter_prioritize_commute context "docs" actions H)].
Defined.

(** X10: filtering twice by the same target specification gives what
    filtering once gives. *)
Theorem filter_targets_idempotent (target_repos : string)
    (actions : list Action) :
  filter_targets target_repos (filter_targets target_repos actions)
  = filter_targets target_repos actions.
Proof.
  unfold filter_targets. destruct (negb _); [|reflexivity].
  induction actions as [|a actions IH]; [reflexivity|]. simpl.
  destruct (retained _ a) eqn:E; [|exact IH]. simpl. now rewrite E, IH.
Qed.

(** X11: with a target specification other than "all" whose names do not
    include "all", the filter returns the empty list when every candidate
    with a scope is scoped to a repository that is not named; candidates
    without a scope are dropped too. *)
Theorem filter_targets_no_match (target_repos : string)
    (actions : list Action) :
  target_repos <> "all"%string ->
  ~ In "all"%string (target_names target_repos) ->
  (forall a scope, In a actions -> target_repo a = Some scope ->
     scope <> "all"%string /\ ~ In scope (target_names target_repos)) ->
  filter_targets target_repos actions = [].
Proof.
  intros Hne Hall Hno. rewrite (filter_targets_names _ _ Hne).
  induction actions as [|a actions IH]; [reflexivity|]. simpl.
  assert (E : retained (target_names target_repos) a = false).
  { destruct (retained _ a) eqn:E; [|reflexivity]. exfalso.
    destruct (target_repo a) as [scope|] eqn:Es.
    - destruct (Hno a scope (or_introl eq_refl) Es) as [H1 H2].
      apply (retained_scoped _ _ _ Es) in E. tauto.
    - apply (retained_scopeless _ _ Es) in E. contradiction. }
  rewrite E. apply IH. intros b scope Hb. apply Hno. now right.
Qed.

Lemma filter_targets_no_match_witness :
  let scopeless :=
    {| type := Some "analyze_repository"%string;
       priority := Some PyFloat.f0_8; goal := Some "maintenance"%string;
       target_repo := None; parameters := [];
       calculated_utility := None |} in
  let actions :=
    [analyze_repository_action "sdk" 50; scopeless] in
  filter_targets "docs,checkout" actions = [].
Proof.
  intros scopeless actions.
  apply (filter_targets_no_match "docs,checkout" actions).
  - discriminate.
  - simpl. intros [H|[H|[]]]; discriminate.
  - intros a scope [<-|[<-|[]]] [= <-]. split; [discriminate|].
    simpl. intros [H|[H|[]]]; discriminate.
Defined.

(** ** Gathering the context, then selecting *)

Section GatherFacts.

Lemma candidates_raise now action_type context :
  candidate_actions now action_type context = None <->
  (action_type = "analyze"%string \/ ~ In action_type named_selectors)
  /\ exists repo, In repo (default [] (repositories context))
                  /\ unanalysable now repo.
Proof.
  unfold candidate_actions.
  destruct (String.eqb_spec action_type "analyze") as [->|E1].
  { rewrite analysis_raises. intuition. }
  destruct (String.eqb_spec action_type "sync") as [->|E2].
  { split; [discriminate|]. intros [[H|H] _]; [discriminate|].
    destruct H. simpl. tauto. }
  destruct (String.eqb_spec action_type "health_check") as [->|E3].
  { split; [discriminate|]. intros [[H|H] _]; [discriminate|].
    destruct H. simpl. tauto. }
  destruct (String.eqb_spec action_type "security_scan") as [->|E4].
  { split; [discriminate|]. intros [[H|H] _]; [discriminate|].
    destruct H. simpl. tauto. }
  assert (Hn : ~ In action_type named_selectors).
  { simpl. intros [H|[H|[H|[H|[]]]]]; congruence. }
  unfold _select_comprehensive_actions.
  split.
  - intros H. split; [now right|].
    apply (analysis_raises now _ (default no_metrics (health_metrics context))).
    destruct (_select_analysis_actions now _ _); [discriminate|reflexivity].
  - intros [_ Hex].
    apply (analysis_raises now _ (default no_metrics (health_metrics context)))
      in Hex.
    now rewrite Hex.
Qed.

Lemma gather_context_some now org_response repos_response context :
  gather_context now org_response repos_response = Some context ->
  exists repos_data metrics,
    Gathered.repositories context = Some repos_data
    /\ Gathered.total_repos context = Some (Z.of_nat (length repos_data))
    /\ Gathered.health_metrics context = Some metrics
    /\ _calculate_health_metrics now repos_data = Some metrics
    /\ Gathered.error context = None.
Proof.
  unfold gather_context. intros H.
  destruct org_response as [org|]; [|discriminate]. simpl in H.
  destruct (if status_code org =? 200 then json org else Some [])
    as [org_data|]; [|discriminate]. simpl in H.
  destruct repos_response as [repos|]; [|discriminate]. simpl in H.
  destruct (if status_code repos =? 200 then json repos else Some [])
    as [repos_data|]; [|discriminate]. simpl in H.
  destruct (_calculate_health_metrics now repos_data) as [metrics|] eqn:E;
    [|discriminate]. simpl in H. injection H as <-.
  exists repos_data, metrics. now repeat split.
Qed.

End GatherFacts.

Lemma gathered_readable now org_response repos_response :
  Forall (fun repo => is_Some (updated_at repo))
    (default []
       (repositories
          (selector_context
             (get_organization_context now org_response repos_response)))).
Proof.
  unfold get_organization_context.
  destruct (gather_context now org_response repos_response)
    as [context|] eqn:E; [|constructor].
  apply gather_context_some in E as (repos_data & metrics & Hr & _ & _ & Hm & _).
  simpl. rewrite Hr. simpl.
  now apply calculate_counters in Hm as (_ & _ & _ & _ & Hall).
Qed.

(** X12: selecting actions from a gathered context raises in one case only,
    whatever the hosting platform answered: the analyze selector or the
    comprehensive bundle is chosen and a listed repository that is more than
    30 days stale has no name.  A timestamp that cannot be read never makes
    it raise, since it has already turned the context into the error
    context, which lists no repository.  In particular it returns whenever
    every listed repository has a name. *)
Theorem gathered_selection_raises (now now' : Z)
    (org_response : option (Response (list (string * PyVal))))
    (repos_response : option (Response (list Repo)))
    (action_type target_repos : string) :
  let context :=
    selector_context
      (get_organization_context now org_response repos_response) in
  let listed := default [] (repositories context) in
  (select_actions now' action_type target_repos context = None <->
   (action_type = "analyze"%string \/ ~ In action_type named_selectors)
   /\ exists repo, In repo listed /\ stale now' repo = true
                   /\ name repo = None)
  /\ ((forall repo, In repo listed -> is_Some (name repo)) ->
      is_Some (select_actions now' action_type target_repos context)).
Proof.
  intros context listed.
  assert (Hiff : select_actions now' action_type target_repos context = None
                 <-> (action_type = "analyze"%string
                      \/ ~ In action_type named_selectors)
                     /\ exists repo, In repo listed /\ stale now' repo = true
                                     /\ name repo = None).
  { rewrite select_actions_candidates.
    pose proof (gathered_readable now org_response repos_response) as Hread.
    fold context in Hread. fold listed in Hread.
    rewrite List.Forall_forall in Hread.
    pose proof (candidates_raise now' action_type context) as Hc.
    fold listed in Hc. split.
    - intros H.
      destruct (candidate_actions now' action_type context) as [c|];
        [discriminate|].
      destruct (proj1 Hc eq_refl) as [Ht (repo & Hr & Hbad)].
      split; [exact Ht|]. exists repo. split; [exact Hr|].
      destruct Hbad as [Eu|Hs]; [|exact Hs].
      destruct (Hread repo Hr) as [u Hu]. congruence.
    - intros [Ht (repo & Hr & Hs & En)].
      rewrite (proj2 Hc); [reflexivity|].
      split; [exact Ht|]. exists repo. split; [exact Hr|]. right. now split. }
  split; [exact Hiff|].
  intros Hnamed.
  destruct (select_actions now' action_type target_repos context) as [out|];
    [eauto|].
  destruct (proj1 Hiff eq_refl) as [_ (repo & Hr & _ & En)].
  destruct (Hnamed repo Hr) as [n Hn]. congruence.
Qed.

Lemma gathered_selection_raises_witness :
  let nameless := {| name := None; language := None; description := None;
                     updated_at := Some 0 |} in
  let listing (repos : list Repo) :=
    Some {| status_code := 200; json := Some repos |} in
  let organisation :=
    Some {| status_code := 200; json := Some ([] : list (string * PyVal)) |} in
  select_actions (100 * day) "analyze" "all"
    (selector_context
       (get_organization_context (100 * day) organisation
          (listing [nameless]))) = None
  /\ is_Some (select_actions (100 * day) "analyze" "all"
                (selector_context
                   (get_organization_context (100 * day) organisation
                      (listing sample_repos))))
  /\ is_Some (select_actions (10 * day) "analyze" "all"
                (selector_context
                   (get_organization_context (10 * day) organisation
                      (listing [nameless])))).
Proof.
  intros nameless listing organisation. split; [|split].
  - apply (proj1 (gathered_selection_raises (100 * day) (100 * day)
                    organisation (listing [nameless]) "analyze" "all")).
    split; [now left|]. exists nameless. split; [now left|]. now split.
  - apply (proj2 (gathered_selection_raises (100 * day) (100 * day)
                    organisation (listing sample_repos) "analyze" "all")).
    intros repo [<-|[<-|[<-|[]]]]; simpl; eauto.
  - eexists. reflexivity.
Defined.


(** ** The executor *)

Section ExecutorFacts.
Context {Payload : Type}.
Variables (h_organization h_repository h_sync h_documentation h_activity
           h_security : Action -> Context -> @Outcome Payload).

Let run := _execute_single_action h_organization h_repository h_sync
             h_documentation h_activity h_security.
Let step := execute_step h_organization h_repository h_sync
              h_documentation h_activity h_security.
Let from := execute_from h_organization h_repository h_sync
              h_documentation h_activity h_security.

Lemma recorded_succeeded k action (o : @Outcome Payload) :
  succeeded (recorded k action o) = outcome_succeeded o.
Proof. now destruct o. Qed.

Lemma execute_step_spec context summary i action :
  let r := recorded i action (run action context) in
  results (step context summary i action) = results summary ++ [r]
  /\ total_actions (step context summary i action) = total_actions summary
  /\ skipped_actions (step context summary i action)
     = skipped_actions summary
  /\ successful_actions (step context summary i action)
     = successful_actions summary
       + (if outcome_succeeded (run action context) then 1 else 0)
  /\ failed_actions (step context summary i action)
     = failed_actions summary
       + (if outcome_succeeded (run action context) then 0 else 1).
Proof.
  unfold step, execute_step, run.
  destruct (_execute_single_action _ _ _ _ _ _ action context) as [r|m];
    simpl.
  - destruct (default false (success r)); simpl; repeat split; lia.
  - repeat split; lia.
Qed.

Lemma execute_from_spec context actions : forall summary i,
  let final := from context summary i actions in
  let successes :=
    count (fun action => outcome_succeeded (run action context)) actions in
  total_actions final = total_actions summary
  /\ skipped_actions final = skipped_actions summary
  /\ successful_actions final = successful_actions summary + successes
  /\ failed_actions final
     = failed_actions summary + (Z.of_nat (length actions) - successes)
  /\ exists added,
       results final = results summary ++ added
       /\ length added = length actions
       /\ count succeeded added = successes
       /\ forall k action,
            actions !! k = Some action ->
            added !! k
            = Some (recorded (i + Z.of_nat k) action (run action context)).
Proof.
  induction actions as [|action actions IH]; intros summary i final successes;
    subst final successes; simpl.
  - unfold count. simpl.
    split; [reflexivity|]. split; [reflexivity|].
    split; [lia|]. split; [lia|].
    exists []. rewrite app_nil_r. split; [reflexivity|].
    split; [reflexivity|]. split; [reflexivity|].
    intros k a Hk. discriminate.
  - destruct (execute_step_spec context summary i action)
      as (Hr & Htot & Hskip & Hs & Hf).
    destruct (IH (step context summary i action) (i + 1))
      as (Htot' & Hskip' & Hs' & Hf' & added & Hres & Hlen & Hc & Hk).
    fold step from run. rewrite !count_cons.
    split; [congruence|]. split; [congruence|].
    split; [rewrite Hs', Hs; lia|].
    split; [rewrite Hf', Hf;
            destruct (outcome_succeeded (run action context)); lia|].
    exists (recorded i action (run action context) :: added).
    split; [rewrite Hres, Hr, <- app_assoc; reflexivity|].
    split; [simpl; now rewrite Hlen|].
    split; [now rewrite count_cons, recorded_succeeded, Hc|].
    intros k a Ha. destruct k as [|k]; simpl in Ha.
    + injection Ha as <-. simpl. now rewrite Z.add_0_r.
    + simpl. rewrite (Hk k a Ha). do 2 f_equal. lia.
Qed.

(** X14: whatever the handlers do, [execute_actions] returns one result
    for each action, in the order of the actions: for the action at
    position [k], the result its handler returned, with the index [k] and
    the type of the action written into it, or, when the handler raised, a
    failure with the text of the exception, that index and that type.  An
    action counts as successful exactly when its handler returns a result
    that reports success, and as failed in every other case, so that
    successes and failures add up to the number of actions; no action is
    ever skipped. *)
Theorem execution_accounting (actions : list Action) (context : Context) :
  let summary := execute_actions h_organization h_repository h_sync
                   h_documentation h_activity h_security actions context in
  let outcome action :=
    _execute_single_action h_organization h_repository h_sync
      h_documentation h_activity h_security action context in
  total_actions summary = Z.of_nat (length actions)
  /\ length (results summary) = length actions
  /\ successful_actions summary + failed_actions summary
     = total_actions summary
  /\ successful_actions summary = count succeeded (results summary)
  /\ skipped_actions summary = 0
  /\ (forall k action,
        actions !! k = Some action ->
        exists r, results summary !! k = Some r
                  /\ action_index r = Some (Z.of_nat k)
                  /\ action_type r = Some (type action))
  /\ successful_actions summary
     = count (fun action => outcome_succeeded (outcome action)) actions
  /\ failed_actions summary
     = count (fun action => negb (outcome_succeeded (outcome action))) actions
  /\ forall k action,
       actions !! k = Some action ->
       results summary !! k
       = Some match outcome action with
              | Returned r =>
                  {| success := success r; error := error r;
                     action_index := Some (Z.of_nat k);
                     action_type := Some (type action);
                     payload := payload r |}
              | Raised message =>
                  {| success := Some false; error := Some message;
                     action_index := Some (Z.of_nat k);
                     action_type := Some (type action);
                     payload := None |}
              end.
Proof.
  intros summary outcome. subst summary. unfold execute_actions.
  destruct (execute_from_spec context actions
              {| total_actions := Z.of_nat (length actions);
                 successful_actions := 0; failed_actions := 0;
                 skipped_actions := 0; results := [] |} 0)
    as (Htot & Hskip & Hs & Hf & added & Hres & Hlen & Hc & Hk).
  fold from. fold run in Hs, Hf, Hc, Hk. simpl in *.
  change (fun action => outcome_succeeded (run action context))
    with (fun action => outcome_succeeded (outcome action)) in *.
  rewrite Hres, Htot, Hs, Hf.
  assert (Hneg : count (fun action => negb (outcome_succeeded (outcome action)))
                   actions
                 = Z.of_nat (length actions)
                   - count (fun action => outcome_succeeded (outcome action))
                       actions).
  { clear. induction actions as [|a l IH]; [reflexivity|].
    rewrite !count_cons, IH. cbn [length].
    destruct (outcome_succeeded (outcome a)); simpl; lia. }
  split; [reflexivity|]. split; [exact Hlen|]. split; [lia|].
  split; [now rewrite Hc|]. split; [exact Hskip|].
  split; [|split; [lia|split; [lia|]]].
  - intros k a Ha. rewrite (Hk k a Ha). eexists. split; [reflexivity|].
    destruct (run a context); simpl; auto.
  - intros k a Ha. rewrite (Hk k a Ha). unfold recorded.
    change (run a context) with (outcome a).
    now destruct (outcome a).
Qed.

(** X15: every action that [select_actions] returns has one of the six
    types the executor dispatches on, so that the executor hands it to the
    handler of its type and never answers that the action type is
    unknown. *)
Theorem selected_actions_are_handled (now : Z)
    (action_type target_repos : string) (context executor_context : Context)
    (out : list Action) (action : Action) :
  select_actions now action_type target_repos context = Some out ->
  In action out ->
  exists t handler,
    type action = Some t
    /\ In (t, handler)
          [("analyze_organization"%string, h_organization);
           ("analyze_repository"%string, h_repository);
           ("sync_organization_profile"%string, h_sync);
           ("check_documentation_health"%string, h_documentation);
           ("check_activity_health"%string, h_activity);
           ("security_scan_organization"%string, h_security)]
    /\ _execute_single_action h_organization h_repository h_sync
         h_documentation h_activity h_security action executor_context
       = handler action executor_context.
Proof.
  intros H Ha.
  apply selected_origin in H as (candidates & Hc & _ & Hin).
  destruct (Hin action Ha) as (a0 & Ha0 & ->).
  apply filter_targets_In in Ha0.
  assert (Ht : exists t, type a0 = Some t /\ In t handled_types).
  { unfold candidate_actions in Hc.
    assert (Hl : forall rest, Forall lesser_action rest ->
                 In a0 (analyze_organization_action :: rest) ->
                 exists t, type a0 = Some t /\ In t handled_types).
    { intros rest Hr [<-|Hin0].
      - eexists. split; [reflexivity|]. simpl. tauto.
      - rewrite List.Forall_forall in Hr. apply lesser_type. auto. }
    destruct (String.eqb action_type "analyze").
    { apply analysis_lesser in Hc as (rest & -> & Hr). eauto. }
    destruct (String.eqb action_type "sync").
    { injection Hc as <-. destruct Ha0 as [<-|[]].
      eexists. split; [reflexivity|]. simpl. tauto. }
    destruct (String.eqb action_type "health_check").
    { injection Hc as <-. apply lesser_type.
      pose proof (health_actions_lesser
                    (default [] (repositories context))
                    (default no_metrics (health_metrics context))) as Hh.
      rewrite List.Forall_forall in Hh. auto. }
    destruct (String.eqb action_type "security_scan").
    { injection Hc as <-. destruct Ha0 as [<-|[]].
      eexists. split; [reflexivity|]. simpl. tauto. }
    apply comprehensive_lesser in Hc as (rest & -> & Hr). eauto. }
  destruct Ht as (t & Et & Hin').
  exists t. unfold _execute_single_action.
  change (type (with_utility context a0)) with (type a0). rewrite Et.
  simpl in Hin'.
  destruct Hin' as [<-|[<-|[<-|[<-|[<-|[<-|[]]]]]]]; eexists;
    (split; [reflexivity|]); (split; [|reflexivity]); simpl; tauto.
Qed.

End ExecutorFacts.

Lemma execution_accounting_witness :
  let review :=
    {| type := Some "review_repository"%string;
       priority := Some PyFloat.f1_0; goal := Some "quality"%string;
       target_repo := Some "sdk"%string; parameters := [];
       calculated_utility := None |} in
  let actions := [check_documentation_health_action 2;
                  check_activity_health_action 1;
                  sync_organization_profile_action;
                  review] in
  let summary :=
    execute_actions raises raises (reports false) (reports true) raises
      raises actions (context_of sample_repos no_metrics) in
  successful_actions summary = 1
  /\ failed_actions summary = 3
  /\ map success (results summary)
     = [Some true; Some false; Some false; Some false]
  /\ map error (results summary)
     = [None; Some "connection refused"%string; None;
        Some "Unknown action type: review_repository"%string]
  /\ map action_index (results summary) = [Some 0; Some 1; Some 2; Some 3].
Proof.
  intros review actions summary.
  pose proof (execution_accounting raises raises (reports false)
                (reports true) raises raises actions
                (context_of sample_repos no_metrics))
    as (_ & _ & _ & _ & _ & _ & Hs & Hf & _).
  split; [exact Hs|]. split; [exact Hf|]. repeat split.
Defined.

Lemma selected_actions_are_handled_witness :
  let context := context_of sample_repos
                   (set_needs_documentation 2 (set_outdated_repos 1 no_metrics)) in
  exists out action,
    select_actions (100 * day) "health_check" "all" context = Some out
    /\ In action out
    /\ type action = Some "check_documentation_health"%string
    /\ _execute_single_action raises raises raises (reports true) raises
         raises action context
       = reports true action context.
Proof.
  intros context.
  destruct (select_actions (100 * day) "health_check" "all" context)
    as [out|] eqn:E; [|exfalso; revert E; vm_compute; discriminate].
  assert (Hin : In (with_utility context (check_documentation_health_action 2))
                   out).
  { revert E. vm_compute. intros [= <-]. left. reflexivity. }
  destruct (selected_actions_are_handled raises raises raises (reports true)
              raises raises _ _ _ _ context out _ E Hin)
    as (t & handler & Ht & _ & _).
  exists out, (with_utility context (check_documentation_health_action 2)).
  split; [reflexivity|]. split; [exact Hin|]. split; reflexivity.
Defined.

(** ** The ranking [select_actions] returns *)

Section RankingFacts.
Import PyFloat PyFloatFacts.

Lemma candidates_shape now action_type context candidates a :
  candidate_actions now action_type context = Some candidates ->
  In a candidates ->
  a = analyze_organization_action \/ lesser_action a
  \/ a = security_scan_organization_action.
Proof.
  unfold candidate_actions. intros H Ha.
  assert (Hl : forall rest, Forall lesser_action rest ->
               In a (analyze_organization_action :: rest) ->
               a = analyze_organization_action \/ lesser_action a
               \/ a = security_scan_organization_action).
  { intros rest Hr [<-|Hin]; [now left|]. right. left.
    rewrite List.Forall_forall in Hr. auto. }
  destruct (String.eqb action_type "analyze").
  { apply analysis_lesser in H as (rest & -> & Hr). eauto. }
  destruct (String.eqb action_type "sync").
  { injection H as <-. destruct Ha as [<-|[]]. right. left. constructor. }
  destruct (String.eqb action_type "health_check").
  { injection H as <-. right. left.
    pose proof (health_actions_lesser
                  (default [] (repositories context))
                  (default no_metrics (health_metrics context))) as Hh.
    rewrite List.Forall_forall in Hh. auto. }
  destruct (String.eqb action_type "security_scan").
  { injection H as <-. destruct Ha as [<-|[]]. now right; right. }
  apply comprehensive_lesser in H as (rest & -> & Hr). eauto.
Qed.

Lemma catalogue_priority a :
  a = analyze_organization_action \/ lesser_action a
  \/ a = security_scan_organization_action ->
  forall p, priority a = Some p -> is_nan p = false.
Proof.
  intros [->|[[repo days| |n|n]| ->]] p [= <-]; reflexivity.
Qed.

Lemma catalogue_utility context a :
  a = analyze_organization_action \/ lesser_action a
  \/ a = security_scan_organization_action ->
  In (utility_of context a) catalogue_utilities.
Proof.
  intros [->|[[repo days| |n|n]| ->]]; unfold utility_of, goal_is; simpl;
    try destruct (3 <? _); vm_compute; tauto.
Qed.

End RankingFacts.

(** X16: whatever the repositories, the metrics, the action type and the
    target are, the list [select_actions] returns is in descending order of
    calculated utility, and every action in it carries one of eight
    utilities: 0.7, 0.84, 0.8, 0.96, 0.9, 1.0, 1.1 or 1.3. *)
Theorem selection_is_ranked (now : Z) (action_type target_repos : string)
    (context : Context) (out : list Action) :
  select_actions now action_type target_repos context = Some out ->
  descending sort_key out
  /\ forall a, In a out ->
       exists u, calculated_utility a = Some u /\ In u catalogue_utilities.
Proof.
  intros H. apply selected_origin in H as (candidates & Hc & -> & Hin).
  split.
  - apply sorted_reverse_descending, with_utility_numbers.
    apply List.Forall_forall. intros a Ha. apply filter_targets_In in Ha.
    exact (catalogue_priority a (candidates_shape _ _ _ _ a Hc Ha)).
  - intros a Ha. destruct (Hin a Ha) as (a0 & Ha0 & ->).
    apply filter_targets_In in Ha0.
    exists (utility_of context a0). split; [reflexivity|].
    exact (catalogue_utility context a0 (candidates_shape _ _ _ _ a0 Hc Ha0)).
Qed.

Lemma selection_is_ranked_witness :
  let context := context_of sample_repos
                   (set_needs_documentation 2 (set_outdated_repos 5 no_metrics)) in
  exists out,
    select_actions (100 * day) "full" "all" context = Some out
    /\ map calculated_utility out
       = [Some PyFloat.f1_1; Some PyFloat.f1_0; Some f0_96; Some f0_96;
          Some PyFloat.f0_9; Some PyFloat.f0_84]
    /\ descending sort_key out.
Proof.
  intros context. eexists. split; [reflexivity|]. split; [reflexivity|].
  exact (proj1 (selection_is_ranked (100 * day) "full" "all" context _
                  eq_refl)).
Defined.
